(** * Pushover client: a shallow embedding of [Pushover/__init__.py]

    The Python module is a thin client of the Pushover HTTP API.  Its
    behaviour is determined by three things which are modelled explicitly:

    - the values it handles (Python [str], [int], [bool], [None], decoded
      JSON bodies, dictionaries used as form payloads);
    - the exceptions it raises itself ([ValueError], [PushoverError]) or lets
      through ([KeyError], [TypeError], [AttributeError], exceptions of the
      [requests] library and of [open]);
    - the I/O it performs: [open(path, "rb")], [requests.post].  Every
      operation returns, next to its outcome, the list of I/O events it
      performed, so that "no request is sent" is a statement on that list.

    A Python [str] is a [string] with one character per code point, so
    that [len] is [String.length]; an [int] is a [Z]. *)

From Stdlib Require Import ZArith String List Bool Floats Lia.
From stdpp Require Import base option gmap strings.

Set Warnings "-register-all".

Open Scope string_scope.
Open Scope Z_scope.

(** ** Python values *)

(** [class Priority(Enum)] *)
Inductive Priority : Type :=
| LOWEST
| LOW
| NORMAL
| HIGH
| EMERGENCY.

(** [priority.value] *)
Definition Priority_value (p : Priority) : Z :=
  match p with
  | LOWEST => -2
  | LOW => -1
  | NORMAL => 0
  | HIGH => 1
  | EMERGENCY => 2
  end.

(** [priority == Priority.EMERGENCY]: enum members compare by identity. *)
Definition Priority_eqb (p q : Priority) : bool :=
  match p, q with
  | LOWEST, LOWEST | LOW, LOW | NORMAL, NORMAL
  | HIGH, HIGH | EMERGENCY, EMERGENCY => true
  | _, _ => false
  end.

(** The Python objects that occur as payload values and in decoded JSON
    bodies.  A [float] is an IEEE 754 binary64, as in CPython. *)
Inductive pyvalue : Type :=
| PNone
| PBool (b : bool)
| PInt (z : Z)
| PFloat (f : PrimFloat.float)
| PStr (s : string)
| PList (l : list pyvalue)
| PDict (d : gmap string pyvalue).

(** [type(v).__name__] *)
Definition py_type_name (v : pyvalue) : string :=
  match v with
  | PNone => "NoneType"
  | PBool _ => "bool"
  | PInt _ => "int"
  | PFloat _ => "float"
  | PStr _ => "str"
  | PList _ => "list"
  | PDict _ => "dict"
  end.

(** [v == 1] for a decoded JSON value [v]: [True == 1] and [1.0 == 1] hold
    in Python, every other kind of value differs from [1]. *)
Definition py_eq_1 (v : pyvalue) : bool :=
  match v with
  | PInt z => z =? 1
  | PBool b => b
  | PFloat f => PrimFloat.eqb f 1%float
  | _ => false
  end.

(** Truth value of an [Optional[str]] argument: [None] and [""] are false. *)
Definition truthy_str (o : option string) : bool :=
  match o with
  | Some (String _ _) => true
  | _ => false
  end.

(** Truth value of an [Optional[int]] argument: [None] and [0] are false. *)
Definition truthy_int (o : option Z) : bool :=
  match o with
  | Some z => negb (z =? 0)
  | None => false
  end.

(** ** Exceptions *)

(** Exceptions that come from outside the module ([requests], [open], the
    interpreter): only their place in the class hierarchy and their [str()]
    matter to the [except] clauses of the module. *)
Inductive exc_class : Type :=
| RequestException   (* requests.exceptions.RequestException and subclasses *)
| OSError            (* raised by open() *)
| OtherException     (* any other subclass of Exception *)
| NonException.      (* BaseException outside Exception: KeyboardInterrupt, ... *)

Record ext_exn : Type := ExtExn {
  exc_cls : exc_class;
  exc_str : string
}.

Inductive exn : Type :=
| ValueError (msg : string)          (* raised by the module's validation *)
| PushoverError (msg : string)       (* class PushoverError(Exception) *)
| KeyError (key : string)            (* d[key] on a dict without key *)
| TypeError (msg : string)           (* v[key] on a value that is no dict *)
| AttributeError (msg : string)      (* v.get on a value that is no dict *)
| External (e : ext_exn).

(** [isinstance(e, Exception)] *)
Definition is_Exception (e : exn) : bool :=
  match e with
  | External x => match exc_cls x with NonException => false | _ => true end
  | _ => true
  end.

(** [isinstance(e, requests.exceptions.RequestException)] *)
Definition is_RequestException (e : exn) : bool :=
  match e with
  | External x => match exc_cls x with RequestException => true | _ => false end
  | _ => false
  end.

(** [str(e)] *)
Definition exn_str (e : exn) : string :=
  match e with
  | ValueError m | PushoverError m | TypeError m | AttributeError m => m
  | KeyError k => "'" +:+ k +:+ "'"
  | External x => exc_str x
  end.

(** ** I/O: files, requests, responses, events *)

(** The object returned by [open(path, "rb")]. *)
Record File : Type := FileOf { file_path : string }.

(** The [files] argument of [requests.post]: [None] or the one-entry dict
    [{"attachment": (filename, fileobj, content_type)}]. *)
Record FilePart : Type := {
  part_name : string;
  part_filename : string;
  part_file : File;
  part_content_type : string
}.

(** A [requests.Response], as far as the module looks at it. *)
Record Response : Type := {
  status_code : Z;
  json : ext_exn + pyvalue    (* response.json(): raises or decodes *)
}.

(** The outside world as the module sees it within one call. *)
Record World : Type := {
  (* open(path, "rb"): the str() of the OSError, or the file *)
  fs_open : string -> string + File;
  (* requests.post(url, data=..., files=...) *)
  http_post : string -> gmap string pyvalue -> option FilePart -> ext_exn + Response
}.

Inductive event : Type :=
| EvOpen (path : string)
| EvPost (url : string) (data : gmap string pyvalue) (files : option FilePart).

(** The requests a trace of events contains. *)
Definition is_request (ev : event) : bool :=
  match ev with
  | EvPost _ _ _ => true
  | EvOpen _ => false
  end.

Definition requests_sent (t : list event) : list event :=
  List.filter is_request t.

(** ** The monad of the module's code: a trace of events and an outcome *)

Definition Run (A : Type) : Type := list event * (exn + A).

Definition raise {A : Type} (e : exn) : Run A := ([], inl e).

Definition emit (ev : event) : Run unit := ([ev], inr tt).

Definition lift_exn {A : Type} (r : exn + A) : Run A := ([], r).

#[export] Instance Run_ret : MRet Run := fun A a => ([], inr a).

#[export] Instance Run_bind : MBind Run := fun A B k m =>
  match m with
  | (t, inl e) => (t, inl e)
  | (t, inr a) => let '(t', r) := k a in ((t ++ t')%list, r)
  end.

(** [try: body  except <clause>: handler]: [handler e] is [None] when the
    clause does not match [e], which then propagates. *)
Definition try_except {A : Type} (body : Run A)
    (handler : exn -> option (Run A)) : Run A :=
  match body with
  | (t, inl e) =>
      match handler e with
      | Some h => let '(t', r) := h in ((t ++ t')%list, r)
      | None => (t, inl e)
      end
  | (t, inr a) => (t, inr a)
  end.

(** [open(path, "rb")] *)
Definition py_open (w : World) (path : string) : Run File :=
  _ ← emit (EvOpen path);
  match fs_open w path with
  | inl msg => raise (External (ExtExn OSError msg))
  | inr f => mret f
  end.

(** [requests.post(url, data=data, files=files)] *)
Definition requests_post (w : World) (url : string)
    (data : gmap string pyvalue) (files : option FilePart) : Run Response :=
  _ ← emit (EvPost url data files);
  match http_post w url data files with
  | inl e => raise (External e)
  | inr r => mret r
  end.

(** [response.json()] *)
Definition response_json (r : Response) : Run pyvalue :=
  match json r with
  | inl e => raise (External e)
  | inr v => mret v
  end.

(** [data[key]] *)
Definition py_getitem (data : pyvalue) (key : string) : Run pyvalue :=
  match data with
  | PDict d =>
      match d !! key with
      | Some v => mret v
      | None => raise (KeyError key)
      end
  | PStr _ => raise (TypeError "string indices must be integers, not 'str'")
  | PList _ => raise (TypeError "list indices must be integers or slices, not str")
  | v => raise (TypeError ("'" +:+ py_type_name v +:+ "' object is not subscriptable"))
  end.

(** [data.get(key, dflt)] *)
Definition py_get (data : pyvalue) (key : string) (dflt : pyvalue) : Run pyvalue :=
  match data with
  | PDict d => mret (default dflt (d !! key))
  | v => raise (AttributeError
                  ("'" +:+ py_type_name v +:+ "' object has no attribute 'get'"))
  end.

(** ** [GlancesData] *)

Record GlancesData : Type := {
  g_title : option string;
  g_text : option string;
  g_subtext : option string;
  g_count : option Z;
  g_percent : option Z
}.

(** [GlancesData()]: every field defaults to [None]. *)
Definition GlancesData_default : GlancesData :=
  {| g_title := None; g_text := None; g_subtext := None;
     g_count := None; g_percent := None |}.

(** [len(s)] *)
Definition py_len (s : string) : Z := Z.of_nat (String.length s).

(** [field and len(field) > 100] *)
Definition longer_than_100 (field : option string) : bool :=
  match field with
  | Some s => truthy_str (Some s) && (py_len s >? 100)
  | None => false
  end.

(** [self.percent is not None and not (0 <= self.percent <= 100)] *)
Definition percent_out_of_range (percent : option Z) : bool :=
  match percent with
  | Some p => negb ((0 <=? p) && (p <=? 100))
  | None => false
  end.

(** [GlancesData.validate] *)
Definition validate (self : GlancesData) : exn + unit :=
  if longer_than_100 (g_title self) then
    inl (ValueError "title must be 100 characters or less")
  else if longer_than_100 (g_text self) then
    inl (ValueError "text must be 100 characters or less")
  else if longer_than_100 (g_subtext self) then
    inl (ValueError "subtext must be 100 characters or less")
  else if percent_out_of_range (g_percent self) then
    inl (ValueError "percent must be between 0 and 100")
  else inr tt.

(** [if field is not None: data[key] = field] *)
Definition set_if_not_None {A : Type} (key : string) (inj : A -> pyvalue)
    (field : option A) (data : gmap string pyvalue) : gmap string pyvalue :=
  match field with
  | Some x => <[key := inj x]> data
  | None => data
  end.

(** [GlancesData.to_dict] *)
Definition to_dict (self : GlancesData) : gmap string pyvalue :=
  let data := ∅ in
  let data := set_if_not_None "title" PStr (g_title self) data in
  let data := set_if_not_None "text" PStr (g_text self) data in
  let data := set_if_not_None "subtext" PStr (g_subtext self) data in
  let data := set_if_not_None "count" PInt (g_count self) data in
  let data := set_if_not_None "percent" PInt (g_percent self) data in
  data.

(** ** [PushoverResponse] *)

(** The dataclass does not check the annotated types: the fields hold
    whatever the decoded body holds. *)
Record PushoverResponse : Type := {
  status : pyvalue;
  request_id : pyvalue;
  receipt : pyvalue;     (* default None *)
  errors : pyvalue       (* default None *)
}.

(** ** [Pushover] *)

Record Pushover : Type := { app_token : string }.

Definition BASE_URL : string := "https://api.pushover.net/1".

(** The arguments of [send_message] after [self]. *)
Record SendArgs : Type := {
  user_key : string;
  message : string;
  title : option string;
  device : option string;
  priority : Priority;
  sound : option string;
  url : option string;
  url_title : option string;
  timestamp : option Z;
  html : bool;
  monospace : bool;
  ttl : option Z;
  retry : option Z;
  expire : option Z;
  callback_url : option string;
  attachment : option string
}.

(** [send_message(user_key, message)] with every default. *)
Definition SendArgs_default (user_key message : string) : SendArgs :=
  {| user_key := user_key; message := message; title := None; device := None;
     priority := NORMAL; sound := None; url := None; url_title := None;
     timestamp := None; html := false; monospace := false; ttl := None;
     retry := None; expire := None; callback_url := None; attachment := None |}.

(** [if field: payload[key] = field], for a [str] argument *)
Definition set_if_str (key : string) (field : option string)
    (payload : gmap string pyvalue) : gmap string pyvalue :=
  match field with
  | Some s => if truthy_str (Some s) then <[key := PStr s]> payload else payload
  | None => payload
  end.

(** [if field: payload[key] = field], for an [int] argument *)
Definition set_if_int (key : string) (field : option Z)
    (payload : gmap string pyvalue) : gmap string pyvalue :=
  match field with
  | Some z => if truthy_int (Some z) then <[key := PInt z]> payload else payload
  | None => payload
  end.

(** [if flag: payload[key] = 1] *)
Definition set_if_flag (key : string) (flag : bool)
    (payload : gmap string pyvalue) : gmap string pyvalue :=
  if flag then <[key := PInt 1]> payload else payload.

(** Lines 120-136 of [send_message]: the payload with its optional
    parameters. *)
Definition build_payload (self : Pushover) (a : SendArgs) : gmap string pyvalue :=
  let payload :=
    <["priority" := PInt (Priority_value (priority a))]>
      (<["message" := PStr (message a)]>
        (<["user" := PStr (user_key a)]>
          (<["token" := PStr (app_token self)]> ∅))) in
  let payload := set_if_str "title" (title a) payload in
  let payload := set_if_str "device" (device a) payload in
  let payload := set_if_str "sound" (sound a) payload in
  let payload := set_if_str "url" (url a) payload in
  let payload := set_if_str "url_title" (url_title a) payload in
  let payload := set_if_int "timestamp" (timestamp a) payload in
  let payload := set_if_flag "html" (html a) payload in
  let payload := set_if_flag "monospace" (monospace a) payload in
  let payload := set_if_int "ttl" (ttl a) payload in
  payload.

Definition msg_requires : string :=
  "Emergency priority requires retry and expire parameters".
Definition msg_retry : string := "retry must be at least 30 seconds".
Definition msg_expire : string :=
  "expire must be at most 10800 seconds (3 hours)".

(** Lines 139-150 of [send_message]: the emergency parameters.  After the
    guard [not retry or not expire] both are integers; the last branch is
    what [None < 30] would do and is never reached. *)
Definition emergency_params (a : SendArgs) (payload : gmap string pyvalue)
    : exn + gmap string pyvalue :=
  if Priority_eqb (priority a) EMERGENCY then
    if negb (truthy_int (retry a)) || negb (truthy_int (expire a)) then
      inl (ValueError msg_requires)
    else
      match retry a, expire a with
      | Some r, Some e =>
          if r <? 30 then inl (ValueError msg_retry)
          else if e >? 10800 then inl (ValueError msg_expire)
          else
            let payload := <["retry" := PInt r]> payload in
            let payload := <["expire" := PInt e]> payload in
            inr (set_if_str "callback" (callback_url a) payload)
      | _, _ =>
          inl (TypeError "'<' not supported between instances of 'NoneType' and 'int'")
      end
  else inr payload.

(** Lines 152-159 of [send_message]: the attachment. *)
Definition open_attachment (w : World) (a : SendArgs) : Run (option FilePart) :=
  match attachment a with
  | Some path =>
      if truthy_str (Some path) then
        try_except
          (f ← py_open w path;
           mret (Some {| part_name := "attachment"; part_filename := "image.jpg";
                         part_file := f; part_content_type := "image/jpeg" |}))
          (fun e =>
             if is_Exception e
             then Some (raise (PushoverError
                                 ("Failed to read attachment: " +:+ exn_str e)))
             else None)
      else mret None
  | None => mret None
  end.

Section Client.

(** [str(v)] of the interpreter, which the f-strings apply to the
    service's error list. *)
Variable py_str : pyvalue -> string.

(** [except requests.exceptions.RequestException as e:
       raise PushoverError(f"Request failed: {str(e)}")] *)
Definition on_RequestException {A : Type} (e : exn) : option (Run A) :=
  if is_RequestException e
  then Some (raise (PushoverError ("Request failed: " +:+ exn_str e)))
  else None.

(** [Pushover.send_message] *)
Definition send_message (w : World) (self : Pushover) (a : SendArgs)
    : Run PushoverResponse :=
  let payload := build_payload self a in
  payload ← lift_exn (emergency_params a payload);
  files ← open_attachment w a;
  try_except
    (response ← requests_post w (BASE_URL +:+ "/messages.json") payload files;
     data ← response_json response;
     if negb (status_code response =? 200) then
       errs ← py_get data "errors" (PList [PStr "Unknown error"]);
       raise (PushoverError ("API request failed: " +:+ py_str errs))
     else
       st ← py_getitem data "status";
       rq ← py_getitem data "request";
       rc ← py_get data "receipt" PNone;
       mret {| status := st; request_id := rq; receipt := rc; errors := PNone |})
    on_RequestException.

(** [except: return False] *)
Definition on_anything_False (e : exn) : option (Run bool) := Some (mret false).

(** Lines 193-198 of [validate_user]: its payload. *)
Definition validate_user_payload (self : Pushover) (user_key : string)
    (device : option string) : gmap string pyvalue :=
  let payload :=
    <["user" := PStr user_key]> (<["token" := PStr (app_token self)]> ∅) in
  set_if_str "device" device payload.

(** [Pushover.validate_user] *)
Definition validate_user (w : World) (self : Pushover) (user_key : string)
    (device : option string) : Run bool :=
  let payload := validate_user_payload self user_key device in
  try_except
    (response ← requests_post w (BASE_URL +:+ "/users/validate.json") payload None;
     data ← response_json response;
     st ← py_get data "status" PNone;
     mret (py_eq_1 st))
    on_anything_False.

(** [Pushover.cancel_emergency] *)
Definition cancel_emergency (w : World) (self : Pushover) (receipt : string)
    : Run bool :=
  try_except
    (response ← requests_post w
                  (BASE_URL +:+ "/receipts/" +:+ receipt +:+ "/cancel.json")
                  (<["token" := PStr (app_token self)]> ∅) None;
     mret (status_code response =? 200))
    on_anything_False.

(** [Pushover.update_glance] *)
Definition update_glance (w : World) (self : Pushover) (user_key : string)
    (glances_data : GlancesData) (device : option string)
    : Run PushoverResponse :=
  _ ← lift_exn (validate glances_data);
  let payload :=
    to_dict glances_data ∪
      <["user" := PStr user_key]> (<["token" := PStr (app_token self)]> ∅) in
  let payload := set_if_str "device" device payload in
  try_except
    (response ← requests_post w (BASE_URL +:+ "/glances.json") payload None;
     data ← response_json response;
     if negb (status_code response =? 200) then
       errs ← py_get data "errors" (PList [PStr "Unknown error"]);
       raise (PushoverError ("API request failed: " +:+ py_str errs))
     else
       st ← py_getitem data "status";
       rq ← py_getitem data "request";
       mret {| status := st; request_id := rq; receipt := PNone; errors := PNone |})
    on_RequestException.

End Client.

(** ** The GET operations: [check_receipt] and [get_sounds] *)

(** [requests.get(url, params=...)] as the outside world answers it. *)
Record GetWorld : Type := {
  http_get : string -> gmap string pyvalue -> ext_exn + Response
}.

Inductive get_event : Type :=
| EvGet (url : string) (params : gmap string pyvalue).

(** Runs of the operations that read: the same monad over [get_event]. *)
Definition GetRun (A : Type) : Type := list get_event * (exn + A).

Definition get_raise {A : Type} (e : exn) : GetRun A := ([], inl e).

(** A step that performs no I/O ([response.json()], [data.get]): only its
    outcome matters. *)
Definition no_io {A : Type} (step : Run A) : GetRun A := ([], step.2).

#[export] Instance GetRun_ret : MRet GetRun := fun A a => ([], inr a).

#[export] Instance GetRun_bind : MBind GetRun := fun A B k m =>
  match m with
  | (t, inl e) => (t, inl e)
  | (t, inr a) => let '(t', r) := k a in ((t ++ t')%list, r)
  end.

Definition get_try_except {A : Type} (body : GetRun A)
    (handler : exn -> option (GetRun A)) : GetRun A :=
  match body with
  | (t, inl e) =>
      match handler e with
      | Some h => let '(t', r) := h in ((t ++ t')%list, r)
      | None => (t, inl e)
      end
  | (t, inr a) => (t, inr a)
  end.

(** [requests.get(url, params=params)] *)
Definition requests_get (w : GetWorld) (url : string)
    (params : gmap string pyvalue) : GetRun Response :=
  match http_get w url params with
  | inl e => ([EvGet url params], inl (External e))
  | inr r => ([EvGet url params], inr r)
  end.

(** [except requests.exceptions.RequestException as e:
       raise PushoverError(f"Request failed: {str(e)}")] *)
Definition get_on_RequestException {A : Type} (e : exn) : option (GetRun A) :=
  if is_RequestException e
  then Some (get_raise (PushoverError ("Request failed: " +:+ exn_str e)))
  else None.

(** [Pushover.check_receipt] *)
Definition check_receipt (w : GetWorld) (self : Pushover) (receipt : string)
    : GetRun pyvalue :=
  get_try_except
    (response ← requests_get w
                  (BASE_URL +:+ "/receipts/" +:+ receipt +:+ ".json")
                  (<["token" := PStr (app_token self)]> ∅);
     if negb (status_code response =? 200) then
       get_raise (PushoverError "Failed to check receipt")
     else
       no_io (response_json response))
    get_on_RequestException.

(** [Pushover.get_sounds] *)
Definition get_sounds (w : GetWorld) (self : Pushover) : GetRun pyvalue :=
  get_try_except
    (response ← requests_get w (BASE_URL +:+ "/sounds.json")
                  (<["token" := PStr (app_token self)]> ∅);
     if negb (status_code response =? 200) then
       get_raise (PushoverError "Failed to get sounds")
     else
       data ← no_io (response_json response);
       no_io (py_get data "sounds" (PDict ∅)))
    get_on_RequestException.

(** ** Worlds and arguments used to run the code on concrete inputs *)

Module Fixtures.

Definition py_str0 (v : pyvalue) : string :=
  match v with
  | PStr s => s
  | _ => "<" +:+ py_type_name v +:+ ">"
  end.

Definition respond (code : Z) (body : pyvalue) : ext_exn + Response :=
  inr {| status_code := code; json := inr body |}.

Definition connection_error : ext_exn :=
  ExtExn RequestException "Connection refused".

(** No file can be opened; every request gets the answer [r]. *)
Definition world (r : ext_exn + Response) : World :=
  {| fs_open := fun _ => inl "[Errno 2] No such file or directory";
     http_post := fun _ _ _ => r |}.

Definition ok_body : pyvalue :=
  PDict (<["request" := PStr "r-1"]> (<["status" := PInt 1]> ∅)).

Definition client : Pushover := {| app_token := "tok" |}.

(** [send_message("u", "m", priority=Priority.EMERGENCY, retry=..,
    expire=.., attachment=..)] *)
Definition emergency_with (retry expire : option Z) (attachment : option string)
    : SendArgs :=
  {| user_key := "u"; message := "m"; title := None; device := None;
     priority := EMERGENCY; sound := None; url := None; url_title := None;
     timestamp := None; html := false; monospace := false; ttl := None;
     retry := retry; expire := expire; callback_url := None;
     attachment := attachment |}.

Definition emergency (retry expire : option Z) : SendArgs :=
  emergency_with retry expire None.

(** [send_message("u", "m", title=.., timestamp=.., html=..,
    attachment=..)] *)
Definition normal_with (title : option string) (timestamp : option Z)
    (html : bool) (attachment : option string) : SendArgs :=
  {| user_key := "u"; message := "m"; title := title; device := None;
     priority := NORMAL; sound := None; url := None; url_title := None;
     timestamp := timestamp; html := html; monospace := false; ttl := None;
     retry := None; expire := None; callback_url := None;
     attachment := attachment |}.

End Fixtures.

(** ** Vocabulary of the statements *)

(** [GlancesData(title=s)], [GlancesData(text=s)], [GlancesData(subtext=s)],
    [GlancesData(percent=p)] *)
Definition glance_title (s : string) : GlancesData :=
  {| g_title := Some s; g_text := None; g_subtext := None;
     g_count := None; g_percent := None |}.
Definition glance_text (s : string) : GlancesData :=
  {| g_title := None; g_text := Some s; g_subtext := None;
     g_count := None; g_percent := None |}.
Definition glance_subtext (s : string) : GlancesData :=
  {| g_title := None; g_text := None; g_subtext := Some s;
     g_count := None; g_percent := None |}.
Definition glance_percent (p : Z) : GlancesData :=
  {| g_title := None; g_text := None; g_subtext := None;
     g_count := None; g_percent := Some p |}.
Definition glance_count (n : Z) : GlancesData :=
  {| g_title := None; g_text := None; g_subtext := None;
     g_count := Some n; g_percent := None |}.

(** The names of the fields of a [GlancesData] the caller has set. *)
Definition set_fields (g : GlancesData) : gset string :=
  (if g_title g is Some _ then {["title"]} else ∅) ∪
  (if g_text g is Some _ then {["text"]} else ∅) ∪
  (if g_subtext g is Some _ then {["subtext"]} else ∅) ∪
  (if g_count g is Some _ then {["count"]} else ∅) ∪
  (if g_percent g is Some _ then {["percent"]} else ∅).

(** [key] is in [data] exactly when the caller supplied a non-empty
    string, and then with that string. *)
Definition included_iff_str (data : gmap string pyvalue) (key : string)
    (field : option string) : Prop :=
  (is_Some (data !! key) <-> exists s, field = Some s /\ s <> "") /\
  (forall s, field = Some s -> s <> "" -> data !! key = Some (PStr s)).

(** [key] is in [data] exactly when the caller supplied a non-zero
    integer, and then with that integer. *)
Definition included_iff_int (data : gmap string pyvalue) (key : string)
    (field : option Z) : Prop :=
  (is_Some (data !! key) <-> exists z, field = Some z /\ z <> 0) /\
  (forall z, field = Some z -> z <> 0 -> data !! key = Some (PInt z)).

(** [key] is in [data] exactly when the flag is [True], and then as [1]. *)
Definition included_iff_flag (data : gmap string pyvalue) (key : string)
    (flag : bool) : Prop :=
  (is_Some (data !! key) <-> flag = true) /\
  (flag = true -> data !! key = Some (PInt 1)).

(** The answer of the world to the request of one [send_message]; [None]
    when the call ends before sending it. *)
Definition send_message_answer (w : World) (self : Pushover) (a : SendArgs)
    : option (ext_exn + Response) :=
  match emergency_params a (build_payload self a), (open_attachment w a).2 with
  | inr payload, inr files =>
      Some (http_post w (BASE_URL +:+ "/messages.json") payload files)
  | _, _ => None
  end.

(** Lines 309-316 of [update_glance]: its payload. *)
Definition glance_payload (self : Pushover) (user_key : string)
    (g : GlancesData) (device : option string) : gmap string pyvalue :=
  set_if_str "device" device
    (to_dict g ∪
       <["user" := PStr user_key]> (<["token" := PStr (app_token self)]> ∅)).

(** The answer of the world to the request of one [update_glance]; [None]
    when validation fails. *)
Definition update_glance_answer (w : World) (self : Pushover)
    (user_key : string) (g : GlancesData) (device : option string)
    : option (ext_exn + Response) :=
  match validate g with
  | inr _ =>
      Some (http_post w (BASE_URL +:+ "/glances.json")
              (glance_payload self user_key g device) None)
  | inl _ => None
  end.

(** What [except RequestException] makes of an exception of the transport
    or of [response.json()]: wrapped when it is a [RequestException], let
    through otherwise. *)
Definition after_except (e : ext_exn) : exn :=
  match exc_cls e with
  | RequestException => PushoverError ("Request failed: " +:+ exc_str e)
  | _ => External e
  end.

(** [v] is a decoded JSON object. *)
Definition is_dict (v : pyvalue) : bool :=
  match v with
  | PDict _ => true
  | _ => false
  end.

(** The same glance data with another count. *)
Definition with_count (g : GlancesData) (count : option Z) : GlancesData :=
  {| g_title := g_title g; g_text := g_text g; g_subtext := g_subtext g;
     g_count := count; g_percent := g_percent g |}.

(** The keys [send_message] can put into a payload. *)
Definition send_message_keys : gset string :=
  {[ "token"; "user"; "message"; "priority"; "title"; "device"; "sound";
     "url"; "url_title"; "timestamp"; "html"; "monospace"; "ttl"; "retry";
     "expire"; "callback" ]}.

(** The keys [update_glance] can put into a payload. *)
Definition update_glance_keys : gset string :=
  {[ "token"; "user"; "device"; "title"; "text"; "subtext"; "count";
     "percent" ]}.

Module GetFixtures.

(** Every GET gets the answer [r]. *)
Definition world (r : ext_exn + Response) : GetWorld :=
  {| http_get := fun _ _ => r |}.

Definition sounds_body : pyvalue :=
  PDict (<["sounds" := PDict (<["bike" := PStr "Bike"]> ∅)]>
           (<["status" := PInt 1]> ∅)).

(** A world in which "photo.jpg" can be opened. *)
Definition world_with_photo (r : ext_exn + Response) : World :=
  {| fs_open := fun path =>
       if String.eqb path "photo.jpg" then inr (FileOf path)
       else inl "[Errno 2] No such file or directory";
     http_post := fun _ _ _ => r |}.

End GetFixtures.

(** ** Reasoning about runs *)

Ltac run_unfold :=
  unfold py_open, requests_post, response_json, py_getitem, py_get,
    on_RequestException, on_anything_False, try_except, lift_exn, emit, raise,
    mbind, Run_bind, mret, Run_ret in *.

(** Case analysis on everything a run branches on. *)
Ltac run_cases :=
  run_unfold; simpl in *;
  repeat (case_match; simplify_eq /=); try done.

Ltac included_cases :=
  simpl; rewrite ?is_Some_alt;
  split; [split|];
  [ intros H; first [done | by eexists]
  | intros (? & ? & ?); by simplify_eq
  | intros; by simplify_eq ].

Lemma truthy_int_false (o : option Z) :
  truthy_int o = false <-> o = None \/ o = Some 0.
Proof.
  destruct o as [z|]; simpl.
  - rewrite negb_false_iff, Z.eqb_eq. split.
    + intros ->. by right.
    + intros [?|[= ->]]; done.
  - split; [by left | done].
Qed.

(** What the steps after the emergency check can raise: never a
    [ValueError]. *)
Lemma open_attachment_outcome (w : World) (a : SendArgs) :
  (exists files, (open_attachment w a).2 = inr files) \/
  (exists msg, (open_attachment w a).2 = inl (PushoverError msg)).
Proof.
  unfold open_attachment. run_cases; eauto.
Qed.

Section ClientFacts.

Variable py_str : pyvalue -> string.

(** A failed emergency check ends [send_message] at once. *)
Lemma send_message_rejected (w : World) (self : Pushover) (a : SendArgs) (e : exn) :
  emergency_params a (build_payload self a) = inl e ->
  send_message py_str w self a = ([], inl e).
Proof.
  intros H. unfold send_message. rewrite H. reflexivity.
Qed.

(** Past the emergency check, [send_message] raises no [ValueError]. *)
Lemma send_message_accepted (w : World) (self : Pushover) (a : SendArgs)
    (payload : gmap string pyvalue) (msg : string) :
  emergency_params a (build_payload self a) = inr payload ->
  (send_message py_str w self a).2 <> inl (ValueError msg).
Proof.
  intros H. unfold send_message. rewrite H.
  destruct (open_attachment_outcome w a) as [[files Hf]|[m Hf]];
    destruct (open_attachment w a) as [t r]; simpl in Hf; subst r;
    run_cases.
Qed.

End ClientFacts.

(** The emergency check, case by case. *)
Lemma emergency_params_missing (a : SendArgs) (payload : gmap string pyvalue) :
  priority a = EMERGENCY ->
  truthy_int (retry a) = false \/ truthy_int (expire a) = false ->
  emergency_params a payload = inl (ValueError msg_requires).
Proof.
  intros Hp H. unfold emergency_params. rewrite Hp. simpl.
  destruct H as [-> | ->]; simpl; [done|].
  by rewrite orb_true_r.
Qed.

Lemma emergency_params_supplied (a : SendArgs) (payload : gmap string pyvalue)
    (r e : Z) :
  priority a = EMERGENCY ->
  retry a = Some r -> expire a = Some e -> r <> 0 -> e <> 0 ->
  emergency_params a payload =
    if r <? 30 then inl (ValueError msg_retry)
    else if e >? 10800 then inl (ValueError msg_expire)
    else inr (set_if_str "callback" (callback_url a)
                (<["expire" := PInt e]> (<["retry" := PInt r]> payload))).
Proof.
  intros Hp Hr He Hr0 He0. unfold emergency_params.
  rewrite Hp, Hr, He. simpl.
  apply Z.eqb_neq in Hr0, He0. by rewrite Hr0, He0.
Qed.

Lemma emergency_params_skipped (a : SendArgs) (payload : gmap string pyvalue) :
  priority a <> EMERGENCY -> emergency_params a payload = inr payload.
Proof.
  intros Hp. unfold emergency_params. by destruct (priority a).
Qed.

(** ** The code on concrete inputs *)

(** A plain message that the service accepts. *)
Example send_message_accepted_by_service :
  send_message Fixtures.py_str0
    (Fixtures.world (Fixtures.respond 200 Fixtures.ok_body))
    Fixtures.client (SendArgs_default "u" "m")
  = ([EvPost "https://api.pushover.net/1/messages.json"
        (build_payload Fixtures.client (SendArgs_default "u" "m")) None],
     inr {| status := PInt 1; request_id := PStr "r-1"; receipt := PNone;
            errors := PNone |}).
Proof. vm_compute. reflexivity. Qed.

(** A connection failure becomes a [PushoverError] in [send_message] and
    [False] in the two best-effort operations. *)
Example connection_failure :
  (send_message Fixtures.py_str0
     (Fixtures.world (inl Fixtures.connection_error))
     Fixtures.client (SendArgs_default "u" "m")).2
  = inl (PushoverError "Request failed: Connection refused") /\
  (validate_user (Fixtures.world (inl Fixtures.connection_error))
     Fixtures.client "u" None).2 = inr false /\
  (cancel_emergency (Fixtures.world (inl Fixtures.connection_error))
     Fixtures.client "rcpt").2 = inr false.
Proof. repeat split. Qed.

(** A non-200 answer: the error list of the body goes into the message. *)
Example service_rejects :
  (send_message Fixtures.py_str0
     (Fixtures.world
        (Fixtures.respond 400 (PDict (<["errors" := PStr "invalid token"]> ∅))))
     Fixtures.client (SendArgs_default "u" "m")).2
  = inl (PushoverError "API request failed: invalid token").
Proof. vm_compute. reflexivity. Qed.

(** ** Emergency validation (C1, C2) *)

(** C1: for [send_message] with priority [EMERGENCY], if [retry] or
    [expire] is missing, that is not supplied in the sense the module gives
    to it for every optional argument ([None], or the zero that
    [not retry or not expire] takes for absent), the [ValueError] asking
    for both parameters is raised; otherwise, if [retry < 30], the
    [ValueError] naming the retry constraint is raised; otherwise, if
    [expire > 10800], the one naming the expire constraint, so the retry
    check comes first; each of them before any I/O (the trace is empty).
    Otherwise no [ValueError] is raised, in particular for [retry = 30]
    and [expire = 10800]. *)
Theorem send_message_emergency_validation (py_str : pyvalue -> string)
    (w : World) (self : Pushover) (a : SendArgs) :
  priority a = EMERGENCY ->
  let out := send_message py_str w self a in
  (retry a = None \/ retry a = Some 0 \/ expire a = None \/ expire a = Some 0 ->
     out = ([], inl (ValueError msg_requires))) /\
  (forall r e : Z,
     retry a = Some r -> expire a = Some e -> r <> 0 -> e <> 0 ->
     (r < 30 -> out = ([], inl (ValueError msg_retry))) /\
     (30 <= r -> 10800 < e -> out = ([], inl (ValueError msg_expire))) /\
     (30 <= r -> e <= 10800 -> forall msg, out.2 <> inl (ValueError msg))) /\
  (retry a = Some 30 -> expire a = Some 10800 ->
     forall msg, out.2 <> inl (ValueError msg)).
Proof.
  intros Hp out.
  assert (Hsup : forall r e : Z,
     retry a = Some r -> expire a = Some e -> r <> 0 -> e <> 0 ->
     (r < 30 -> out = ([], inl (ValueError msg_retry))) /\
     (30 <= r -> 10800 < e -> out = ([], inl (ValueError msg_expire))) /\
     (30 <= r -> e <= 10800 -> forall msg, out.2 <> inl (ValueError msg))).
  { intros r e Hr He Hr0 He0.
    pose proof (emergency_params_supplied a (build_payload self a) r e
                  Hp Hr He Hr0 He0) as Hem.
    split; [|split].
    - intros Hlt. apply send_message_rejected. rewrite Hem.
      by apply Z.ltb_lt in Hlt as ->.
    - intros Hge Hgt. apply send_message_rejected. rewrite Hem.
      apply Z.ltb_ge in Hge as ->. by apply Z.gtb_lt in Hgt as ->.
    - intros Hge Hle msg. eapply send_message_accepted. rewrite Hem.
      apply Z.ltb_ge in Hge as ->.
      destruct (e >? 10800) eqn:Hgt; [|reflexivity].
      apply Z.gtb_lt in Hgt. lia. }
  split; [|split].
  - intros Hmiss. apply send_message_rejected, emergency_params_missing; [done|].
    rewrite !truthy_int_false. tauto.
  - exact Hsup.
  - intros Hr He. apply (Hsup 30 10800 Hr He); lia.
Qed.

Lemma send_message_emergency_validation_witness :
  priority (Fixtures.emergency (Some 30) (Some 10800)) = EMERGENCY /\
  forall msg,
    (send_message Fixtures.py_str0
       (Fixtures.world (Fixtures.respond 200 Fixtures.ok_body))
       Fixtures.client (Fixtures.emergency (Some 30) (Some 10800))).2
    <> inl (ValueError msg).
Proof.
  split; [reflexivity|].
  apply (send_message_emergency_validation Fixtures.py_str0
           (Fixtures.world (Fixtures.respond 200 Fixtures.ok_body))
           Fixtures.client (Fixtures.emergency (Some 30) (Some 10800)) eq_refl);
    reflexivity.
Defined.

(** C2: for every priority other than [EMERGENCY] ([LOWEST], [LOW],
    [NORMAL], [HIGH]), [send_message] raises no [ValueError], whatever
    [retry] and [expire] are and in particular when they are omitted: the
    emergency check is skipped and leaves the payload as it is. *)
Theorem send_message_no_validation_below_emergency (py_str : pyvalue -> string)
    (w : World) (self : Pushover) (a : SendArgs) :
  priority a <> EMERGENCY ->
  emergency_params a (build_payload self a) = inr (build_payload self a) /\
  forall msg, (send_message py_str w self a).2 <> inl (ValueError msg).
Proof.
  intros Hp.
  pose proof (emergency_params_skipped a (build_payload self a) Hp) as Hskip.
  split; [exact Hskip|].
  intros msg. by eapply send_message_accepted.
Qed.

Lemma send_message_no_validation_below_emergency_witness :
  retry (SendArgs_default "u" "m") = None /\
  expire (SendArgs_default "u" "m") = None /\
  forall msg,
    (send_message Fixtures.py_str0
       (Fixtures.world (Fixtures.respond 200 Fixtures.ok_body))
       Fixtures.client (SendArgs_default "u" "m")).2
    <> inl (ValueError msg).
Proof.
  split; [reflexivity|]. split; [reflexivity|].
  apply (send_message_no_validation_below_emergency Fixtures.py_str0
           (Fixtures.world (Fixtures.respond 200 Fixtures.ok_body))
           Fixtures.client (SendArgs_default "u" "m")).
  discriminate.
Defined.

(** ** [GlancesData]: validation (C3) *)

Lemma longer_than_100_spec (field : option string) :
  longer_than_100 field = false <->
  forall s, field = Some s -> py_len s <= 100.
Proof.
  destruct field as [s|]; simpl; [|done].
  split.
  - intros H s' [= <-].
    destruct s as [|c s]; [unfold py_len; simpl; lia|].
    simpl in H. rewrite Z.gtb_ltb in H. by apply Z.ltb_ge in H.
  - intros H. specialize (H s eq_refl).
    apply andb_false_iff. right. rewrite Z.gtb_ltb. by apply Z.ltb_ge.
Qed.

Lemma percent_out_of_range_spec (percent : option Z) :
  percent_out_of_range percent = false <->
  forall p, percent = Some p -> 0 <= p <= 100.
Proof.
  destruct percent as [p|]; simpl; [|done].
  rewrite negb_false_iff, andb_true_iff, !Z.leb_le.
  split.
  - by intros H p' [= <-].
  - intros H. by apply H.
Qed.

(** [validate] accepts exactly the data within the bounds. *)
Lemma validate_ok_iff (g : GlancesData) :
  validate g = inr tt <->
  (forall s, g_title g = Some s -> py_len s <= 100) /\
  (forall s, g_text g = Some s -> py_len s <= 100) /\
  (forall s, g_subtext g = Some s -> py_len s <= 100) /\
  (forall p, g_percent g = Some p -> 0 <= p <= 100).
Proof.
  rewrite <- !longer_than_100_spec, <- percent_out_of_range_spec.
  unfold validate.
  destruct (longer_than_100 (g_title g)), (longer_than_100 (g_text g)),
    (longer_than_100 (g_subtext g)), (percent_out_of_range (g_percent g));
    split; try done; intros (? & ? & ? & ?); done.
Qed.

(** Whatever [validate] raises is a [ValueError]. *)
Lemma validate_raises_ValueError (g : GlancesData) (e : exn) :
  validate g = inl e -> exists msg, e = ValueError msg.
Proof.
  unfold validate. intros H.
  repeat case_match; simplify_eq; eauto.
Qed.

Lemma py_len_101_longer (s : string) :
  py_len s = 101 -> longer_than_100 (Some s) = true.
Proof.
  intros H. destruct s as [|c s]; [done|].
  simpl. rewrite H. reflexivity.
Qed.

(** C3: [validate] enforces exactly the bounds of the data model: it
    accepts a [GlancesData] if and only if title, text and subtext, where
    set, have at most 100 characters and percent, where set, lies in
    0..100, and what it raises otherwise is a [ValueError].  At the
    boundaries: a title (text, subtext) of length 101 is rejected and one
    of length 100 accepted; percent -1 and 101 are rejected, 0 and 100
    accepted.  [update_glance] validates first: when validation fails, it
    raises that error and the trace is empty, so no request was sent;
    when it succeeds, exactly one request is sent. *)
Theorem glances_validation (py_str : pyvalue -> string) :
  (forall g : GlancesData,
     validate g = inr tt <->
     (forall s, g_title g = Some s -> py_len s <= 100) /\
     (forall s, g_text g = Some s -> py_len s <= 100) /\
     (forall s, g_subtext g = Some s -> py_len s <= 100) /\
     (forall p, g_percent g = Some p -> 0 <= p <= 100)) /\
  (forall (g : GlancesData) (e : exn),
     validate g = inl e -> exists msg, e = ValueError msg) /\
  (forall s : string,
     (py_len s = 101 ->
        validate (glance_title s)
          = inl (ValueError "title must be 100 characters or less") /\
        validate (glance_text s)
          = inl (ValueError "text must be 100 characters or less") /\
        validate (glance_subtext s)
          = inl (ValueError "subtext must be 100 characters or less")) /\
     (py_len s = 100 ->
        validate (glance_title s) = inr tt /\
        validate (glance_text s) = inr tt /\
        validate (glance_subtext s) = inr tt)) /\
  validate (glance_percent (-1))
    = inl (ValueError "percent must be between 0 and 100") /\
  validate (glance_percent 101)
    = inl (ValueError "percent must be between 0 and 100") /\
  validate (glance_percent 0) = inr tt /\
  validate (glance_percent 100) = inr tt /\
  (forall (w : World) (self : Pushover) (user_key : string) (g : GlancesData)
          (device : option string),
     match validate g with
     | inl e =>
         update_glance py_str w self user_key g device = ([], inl e)
     | inr _ =>
         exists data,
           (update_glance py_str w self user_key g device).1
           = [EvPost (BASE_URL +:+ "/glances.json") data None]
     end).
Proof.
  split; [exact validate_ok_iff|].
  split; [exact validate_raises_ValueError|].
  split.
  { intros s. split.
    - intros H. apply py_len_101_longer in H.
      unfold validate, glance_title, glance_text, glance_subtext.
      cbn [g_title g_text g_subtext g_percent]. rewrite H.
      cbn [longer_than_100]. done.
    - intros H.
      rewrite !validate_ok_iff. unfold glance_title, glance_text, glance_subtext.
      cbn [g_title g_text g_subtext g_percent].
      repeat split; intros; simplify_eq; lia. }
  do 4 (split; [reflexivity|]).
  intros w self user_key g device. unfold update_glance.
  destruct (validate g) as [e|[]]; [reflexivity|].
  run_cases; eauto.
Qed.

(** ** [GlancesData]: serialization (C4, C10) *)

Lemma lookup_set_if_not_None {A : Type} (key key' : string) (inj : A -> pyvalue)
    (field : option A) (data : gmap string pyvalue) :
  set_if_not_None key inj field data !! key' =
    if decide (key = key')
    then match field with Some x => Some (inj x) | None => data !! key' end
    else data !! key'.
Proof.
  unfold set_if_not_None. destruct field as [x|].
  - by rewrite lookup_insert.
  - by case_decide.
Qed.

(** The five lookups that describe [to_dict] completely. *)
Lemma to_dict_lookup (g : GlancesData) (key : string) :
  to_dict g !! key =
    if decide ("percent" = key) then PInt <$> g_percent g
    else if decide ("count" = key) then PInt <$> g_count g
    else if decide ("subtext" = key) then PStr <$> g_subtext g
    else if decide ("text" = key) then PStr <$> g_text g
    else if decide ("title" = key) then PStr <$> g_title g
    else None.
Proof.
  unfold to_dict. rewrite !lookup_set_if_not_None, lookup_empty.
  repeat case_decide; subst; try done;
    destruct (g_title g), (g_text g), (g_subtext g), (g_count g), (g_percent g);
    done.
Qed.

Lemma elem_of_if_Some {A : Type} (field : option A) (name key : string) :
  key ∈ (if field is Some _ then {[name]} else ∅ : gset string) <->
  name = key /\ is_Some field.
Proof.
  destruct field as [x|].
  - rewrite elem_of_singleton. split; [intros ->; eauto | by intros [-> _]].
  - rewrite elem_of_empty, is_Some_alt. tauto.
Qed.

(** C4: the dictionary [to_dict] returns holds exactly the fields that are
    set: its keys are precisely the names of the fields that are not
    [None], each with the value the caller gave (no null and no default is
    emitted), and no other key; [GlancesData(count=5)] serializes to
    exactly [{"count": 5}]. *)
Theorem to_dict_exactly_set_fields :
  (forall g : GlancesData, dom (to_dict g) = set_fields g) /\
  (forall g : GlancesData,
     to_dict g !! "title" = PStr <$> g_title g /\
     to_dict g !! "text" = PStr <$> g_text g /\
     to_dict g !! "subtext" = PStr <$> g_subtext g /\
     to_dict g !! "count" = PInt <$> g_count g /\
     to_dict g !! "percent" = PInt <$> g_percent g) /\
  to_dict (glance_count 5) = {["count" := PInt 5]}.
Proof.
  split; [|split].
  - intros g. apply set_eq. intros key.
    rewrite elem_of_dom, to_dict_lookup. unfold set_fields.
    rewrite !elem_of_union, !elem_of_if_Some.
    repeat case_decide; subst; rewrite ?fmap_is_Some, ?is_Some_alt;
      intuition congruence.
  - intros g. rewrite !to_dict_lookup. done.
  - reflexivity.
Qed.

(** ** The payload of [send_message] (C5) *)

Lemma lookup_set_if_str (key key' : string) (field : option string)
    (payload : gmap string pyvalue) :
  set_if_str key field payload !! key' =
    if decide (key = key')
    then (if truthy_str field then PStr <$> field else payload !! key')
    else payload !! key'.
Proof.
  unfold set_if_str. destruct field as [[|c s]|]; simpl.
  - by case_decide.
  - by rewrite lookup_insert.
  - by case_decide.
Qed.

Lemma lookup_set_if_int (key key' : string) (field : option Z)
    (payload : gmap string pyvalue) :
  set_if_int key field payload !! key' =
    if decide (key = key')
    then (if truthy_int field then PInt <$> field else payload !! key')
    else payload !! key'.
Proof.
  unfold set_if_int. destruct field as [z|]; simpl.
  - destruct (z =? 0); simpl; [by case_decide | by rewrite lookup_insert].
  - by case_decide.
Qed.

Lemma lookup_set_if_flag (key key' : string) (flag : bool)
    (payload : gmap string pyvalue) :
  set_if_flag key flag payload !! key' =
    if decide (key = key')
    then (if flag then Some (PInt 1) else payload !! key')
    else payload !! key'.
Proof.
  unfold set_if_flag. destruct flag.
  - by rewrite lookup_insert.
  - by case_decide.
Qed.

(** Every lookup in the payload built by lines 120-136. *)
Lemma build_payload_lookup (self : Pushover) (a : SendArgs) (key : string) :
  build_payload self a !! key =
    if decide ("ttl" = key) then
      if truthy_int (ttl a) then PInt <$> ttl a else None
    else if decide ("monospace" = key) then
      if monospace a then Some (PInt 1) else None
    else if decide ("html" = key) then
      if html a then Some (PInt 1) else None
    else if decide ("timestamp" = key) then
      if truthy_int (timestamp a) then PInt <$> timestamp a else None
    else if decide ("url_title" = key) then
      if truthy_str (url_title a) then PStr <$> url_title a else None
    else if decide ("url" = key) then
      if truthy_str (url a) then PStr <$> url a else None
    else if decide ("sound" = key) then
      if truthy_str (sound a) then PStr <$> sound a else None
    else if decide ("device" = key) then
      if truthy_str (device a) then PStr <$> device a else None
    else if decide ("title" = key) then
      if truthy_str (title a) then PStr <$> title a else None
    else if decide ("priority" = key) then
      Some (PInt (Priority_value (priority a)))
    else if decide ("message" = key) then Some (PStr (message a))
    else if decide ("user" = key) then Some (PStr (user_key a))
    else if decide ("token" = key) then Some (PStr (app_token self))
    else None.
Proof.
  unfold build_payload.
  rewrite !lookup_set_if_int, !lookup_set_if_flag, !lookup_set_if_int,
    !lookup_set_if_str, !lookup_insert, lookup_empty.
  repeat (case_decide; [subst; simpl; repeat case_match; done|]).
  done.
Qed.

(** The emergency parameters only add the keys [retry], [expire] and
    [callback]. *)
Lemma emergency_params_lookup (a : SendArgs) (payload payload' : gmap string pyvalue)
    (key : string) :
  emergency_params a payload = inr payload' ->
  key <> "retry" -> key <> "expire" -> key <> "callback" ->
  payload' !! key = payload !! key.
Proof.
  unfold emergency_params. intros H Hr He Hc.
  repeat case_match; simplify_eq.
  - rewrite lookup_set_if_str. case_decide; [done|].
    by rewrite !lookup_insert_ne.
  - done.
Qed.

(** Opening the attachment sends nothing. *)
Lemma open_attachment_no_request (w : World) (a : SendArgs) :
  requests_sent (open_attachment w a).1 = [].
Proof.
  unfold open_attachment. run_cases.
Qed.

Lemma requests_sent_app (t t' : list event) :
  requests_sent (t ++ t') = (requests_sent t ++ requests_sent t')%list.
Proof. apply List.filter_app. Qed.

Lemma elem_of_requests_sent (ev : event) (t : list event) :
  ev ∈ requests_sent t <-> ev ∈ t /\ is_request ev = true.
Proof.
  unfold requests_sent. rewrite !list_elem_of_In. apply List.filter_In.
Qed.

Section RequestFacts.

Variable py_str : pyvalue -> string.

(** The requests of one [send_message]: none when the emergency check or
    the attachment fails, else the single POST of the checked payload. *)
Lemma send_message_requests (w : World) (self : Pushover) (a : SendArgs) :
  requests_sent (send_message py_str w self a).1 =
    match emergency_params a (build_payload self a), (open_attachment w a).2 with
    | inr payload, inr files =>
        [EvPost (BASE_URL +:+ "/messages.json") payload files]
    | _, _ => []
    end.
Proof.
  unfold send_message.
  pose proof (open_attachment_no_request w a) as Hopen.
  destruct (emergency_params a (build_payload self a)) as [e|payload];
    [reflexivity|].
  destruct (open_attachment w a) as [t [e|files]]; simpl in Hopen |- *.
  - run_cases; by rewrite ?app_nil_r.
  - run_cases; rewrite ?app_nil_r, requests_sent_app, Hopen; reflexivity.
Qed.

Lemma send_message_request (w : World) (self : Pushover) (a : SendArgs)
    (url : string) (data : gmap string pyvalue) (files : option FilePart) :
  EvPost url data files ∈ (send_message py_str w self a).1 ->
  url = BASE_URL +:+ "/messages.json" /\
  emergency_params a (build_payload self a) = inr data /\
  (open_attachment w a).2 = inr files.
Proof.
  intros Hin.
  assert (Hsent : EvPost url data files
                    ∈ requests_sent (send_message py_str w self a).1)
    by by apply elem_of_requests_sent.
  rewrite send_message_requests in Hsent.
  destruct (emergency_params a (build_payload self a)) as [e|payload];
    [by apply elem_of_nil in Hsent|].
  destruct (open_attachment w a).2 as [e|files'];
    [by apply elem_of_nil in Hsent|].
  apply list_elem_of_singleton in Hsent. by simplify_eq.
Qed.

End RequestFacts.

Lemma included_iff_str_intro (data : gmap string pyvalue) (key : string)
    (field : option string) :
  data !! key = (if truthy_str field then PStr <$> field else None) ->
  included_iff_str data key field.
Proof.
  unfold included_iff_str. intros ->.
  destruct field as [[|c s]|]; included_cases.
Qed.

Lemma included_iff_int_intro (data : gmap string pyvalue) (key : string)
    (field : option Z) :
  data !! key = (if truthy_int field then PInt <$> field else None) ->
  included_iff_int data key field.
Proof.
  unfold included_iff_int. intros ->.
  destruct field as [z|]; [destruct (Z.eqb_spec z 0) as [->|Hz]|];
    simpl; rewrite ?(proj2 (Z.eqb_neq z 0)) by done;
    included_cases.
Qed.

Lemma included_iff_flag_intro (data : gmap string pyvalue) (key : string)
    (flag : bool) :
  data !! key = (if flag then Some (PInt 1) else None) ->
  included_iff_flag data key flag.
Proof.
  unfold included_iff_flag. intros ->.
  destruct flag; rewrite ?is_Some_alt; split; try split; done.
Qed.

(** C5: in every request [send_message] sends, each optional field
    (title, device, sound, url, url_title, timestamp, html, monospace, ttl)
    is in the payload if and only if the caller supplied a value that is
    not empty, zero or false ([None], [""], [0] and [False] leave the
    field out), and then with the supplied value ([1] for the two flags);
    the required fields token, user, message and priority are always
    there. *)
Theorem send_message_payload_fields (py_str : pyvalue -> string) (w : World)
    (self : Pushover) (a : SendArgs)
    (endpoint : string) (data : gmap string pyvalue)
    (files : option FilePart) :
  EvPost endpoint data files ∈ (send_message py_str w self a).1 ->
  included_iff_str data "title" (title a) /\
  included_iff_str data "device" (device a) /\
  included_iff_str data "sound" (sound a) /\
  included_iff_str data "url" (url a) /\
  included_iff_str data "url_title" (url_title a) /\
  included_iff_int data "timestamp" (timestamp a) /\
  included_iff_flag data "html" (html a) /\
  included_iff_flag data "monospace" (monospace a) /\
  included_iff_int data "ttl" (ttl a) /\
  data !! "token" = Some (PStr (app_token self)) /\
  data !! "user" = Some (PStr (user_key a)) /\
  data !! "message" = Some (PStr (message a)) /\
  data !! "priority" = Some (PInt (Priority_value (priority a))).
Proof.
  intros Hin. apply send_message_request in Hin as (_ & Hem & _).
  assert (Hkey : forall key,
            key <> "retry" -> key <> "expire" -> key <> "callback" ->
            data !! key = build_payload self a !! key)
    by (intros key; eapply emergency_params_lookup; eassumption).
  repeat split;
    first [ apply included_iff_str_intro | apply included_iff_int_intro
          | apply included_iff_flag_intro | idtac ];
    (rewrite Hkey by discriminate); rewrite build_payload_lookup;
    reflexivity.
Qed.

Lemma send_message_payload_fields_witness :
  let a := Fixtures.normal_with (Some "") (Some 0) true None in
  let w := Fixtures.world (Fixtures.respond 200 Fixtures.ok_body) in
  let data := build_payload Fixtures.client a in
  EvPost (BASE_URL +:+ "/messages.json") data None
    ∈ (send_message Fixtures.py_str0 w Fixtures.client a).1 /\
  included_iff_str data "title" (Some "") /\
  included_iff_int data "timestamp" (Some 0) /\
  included_iff_flag data "html" true.
Proof.
  intros a w data.
  assert (Hin : EvPost (BASE_URL +:+ "/messages.json") data None
                  ∈ (send_message Fixtures.py_str0 w Fixtures.client a).1)
    by (vm_compute; left).
  split; [exact Hin|].
  pose proof (send_message_payload_fields Fixtures.py_str0 w Fixtures.client a
                _ _ _ Hin) as H.
  split; [apply H|]. split; apply H.
Defined.

(** ** The best-effort operations (C6, C7) *)

(** C6, as stated, does not hold: a non-200 response is listed among the
    failures that make [validate_user] return [False], but the status code
    is never looked at; with a 500 response whose body decodes to
    [{"status": 1, ...}] it returns [True]. *)
Lemma validate_user_non_200_counterexample :
  ~ (forall (w : World) (self : Pushover) (user_key : string)
            (device : option string) (resp : Response),
       (forall endpoint data files, http_post w endpoint data files = inr resp) ->
       status_code resp <> 200 ->
       (validate_user w self user_key device).2 = inr false).
Proof.
  intros H.
  specialize (H (Fixtures.world (Fixtures.respond 500 Fixtures.ok_body))
                Fixtures.client "u" None
                {| status_code := 500; json := inr Fixtures.ok_body |}
                ltac:(reflexivity) ltac:(discriminate)).
  vm_compute in H. discriminate H.
Qed.

(** The outcome of [validate_user] as a function of the answer to its
    request. *)
Lemma validate_user_result (w : World) (self : Pushover) (user_key : string)
    (device : option string) :
  (validate_user w self user_key device).2 =
    inr match http_post w (BASE_URL +:+ "/users/validate.json")
                (validate_user_payload self user_key device) None with
        | inr resp =>
            match json resp with
            | inr (PDict d) => py_eq_1 (default PNone (d !! "status"))
            | _ => false
            end
        | inl _ => false
        end.
Proof.
  unfold validate_user. run_cases.
Qed.

(** C6 (amended): [validate_user] never raises: it always returns a
    boolean.  It returns [False] when the request fails at the transport
    level, when the body cannot be decoded, and when the decoded body is
    not an object.  It returns [True] if and only if a response arrived
    whose body decodes to an object with a status field equal to [1] (in
    Python's [==]; for an integer status, exactly the integer 1),
    whatever the HTTP status code of the response. *)
Theorem validate_user_best_effort (w : World) (self : Pushover)
    (user_key : string) (device : option string) :
  let answer :=
    http_post w (BASE_URL +:+ "/users/validate.json")
      (validate_user_payload self user_key device) None in
  let result := (validate_user w self user_key device).2 in
  (exists b : bool, result = inr b) /\
  (forall e, answer = inl e -> result = inr false) /\
  (forall resp e, answer = inr resp -> json resp = inl e -> result = inr false) /\
  (forall resp v,
     answer = inr resp -> json resp = inr v -> (forall d, v <> PDict d) ->
     result = inr false) /\
  (result = inr true <->
   exists resp d st,
     answer = inr resp /\ json resp = inr (PDict d) /\
     d !! "status" = Some st /\ py_eq_1 st = true) /\
  (forall resp d z,
     answer = inr resp -> json resp = inr (PDict d) ->
     d !! "status" = Some (PInt z) ->
     result = inr (bool_decide (z = 1))).
Proof.
  intros answer result.
  pose proof (validate_user_result w self user_key device) as Hres.
  fold answer result in Hres. clearbody answer result.
  rewrite Hres. clear Hres result.
  split; [eauto|].
  split; [by intros e ->|].
  split; [by intros resp e -> ->|].
  split.
  { intros resp v -> -> Hv. destruct v; try done. by destruct (Hv d). }
  split.
  - split.
    + intros [= Heq]. destruct answer as [e|resp]; [done|].
      destruct (json resp) as [e|[]] eqn:Hjson; try done.
      destruct (d !! "status") as [st|] eqn:Hst; [|done].
      by exists resp, d, st.
    + intros (resp & d & st & -> & -> & -> & Heq). simpl. by rewrite Heq.
  - intros resp d z -> -> ->. simpl. f_equal.
    destruct (Z.eqb_spec z 1).
    + by rewrite bool_decide_true.
    + by rewrite bool_decide_false.
Qed.

(** C7: [cancel_emergency] never raises: it always returns a boolean.  It
    returns [True] if and only if the cancel request got a response whose
    HTTP status is exactly 200; every other status (500, say) and every
    transport failure give [False]. *)
Theorem cancel_emergency_true_iff_200 (w : World) (self : Pushover)
    (receipt : string) :
  let answer :=
    http_post w (BASE_URL +:+ "/receipts/" +:+ receipt +:+ "/cancel.json")
      (<["token" := PStr (app_token self)]> ∅) None in
  let result := (cancel_emergency w self receipt).2 in
  (exists b : bool, result = inr b) /\
  (result = inr true <->
   exists resp, answer = inr resp /\ status_code resp = 200) /\
  (forall resp, answer = inr resp -> status_code resp <> 200 ->
     result = inr false) /\
  (forall resp, answer = inr resp -> status_code resp = 500 ->
     result = inr false) /\
  (forall e, answer = inl e -> result = inr false).
Proof.
  intros answer result. subst answer result. unfold cancel_emergency.
  run_unfold. simpl.
  destruct (http_post w (BASE_URL +:+ "/receipts/" +:+ receipt +:+ "/cancel.json")
              (<["token" := PStr (app_token self)]> ∅) None)
    as [e|resp] eqn:Hpost; simpl.
  - repeat split; try done; eauto. intros (? & ? & _). done.
  - repeat split; try done; eauto.
    + intros [= Heq]. exists resp. by apply Z.eqb_eq in Heq.
    + intros (? & [= <-] & Heq). by rewrite Heq.
    + intros ? [= <-] Hne. by apply Z.eqb_neq in Hne as ->.
    + intros ? [= <-] Heq. by rewrite Heq.
Qed.

(** ** Attachment and response decoding in [send_message] (C8, C9) *)





Section Decoding.

Variable py_str : pyvalue -> string.

(** [send_message] once its request has been answered with status 200 and
    a body that decodes to an object. *)
Lemma send_message_decoded (w : World) (self : Pushover) (a : SendArgs)
    (payload : gmap string pyvalue) (files : option FilePart)
    (resp : Response) (d : gmap string pyvalue) :
  emergency_params a (build_payload self a) = inr payload ->
  (open_attachment w a).2 = inr files ->
  http_post w (BASE_URL +:+ "/messages.json") payload files = inr resp ->
  status_code resp = 200 ->
  json resp = inr (PDict d) ->
  (send_message py_str w self a).2 =
    match d !! "status", d !! "request" with
    | None, _ => inl (KeyError "status")
    | Some _, None => inl (KeyError "request")
    | Some st, Some rq =>
        inr {| status := st; request_id := rq;
               receipt := default PNone (d !! "receipt"); errors := PNone |}
    end.
Proof.
  intros Hem Hopen Hpost Hcode Hjson. unfold send_message. rewrite Hem.
  destruct (open_attachment w a) as [t r]. simpl in Hopen. subst r.
  run_unfold. simpl. rewrite Hpost. simpl. rewrite Hjson, Hcode. simpl.
  destruct (d !! "status") as [st|]; simpl; [|done].
  destruct (d !! "request") as [rq|]; simpl; done.
Qed.

End Decoding.

(** What [send_message] does with a 200 answer whose body decodes to an
    object: [data["status"]] and [data["request"]] raise a [KeyError] for a
    missing key, which [except RequestException] does not catch; only the
    receipt is read with [data.get]. *)
Lemma send_message_missing_field (py_str : pyvalue -> string) (w : World)
    (self : Pushover) (a : SendArgs)
    (payload : gmap string pyvalue) (files : option FilePart)
    (resp : Response) (d : gmap string pyvalue) :
  emergency_params a (build_payload self a) = inr payload ->
  (open_attachment w a).2 = inr files ->
  http_post w (BASE_URL +:+ "/messages.json") payload files = inr resp ->
  status_code resp = 200 ->
  json resp = inr (PDict d) ->
  let result := (send_message py_str w self a).2 in
  (d !! "status" = None -> result = inl (KeyError "status")) /\
  (is_Some (d !! "status") -> d !! "request" = None ->
     result = inl (KeyError "request")) /\
  (forall st rq,
     d !! "status" = Some st -> d !! "request" = Some rq ->
     result = inr {| status := st; request_id := rq;
                     receipt := default PNone (d !! "receipt");
                     errors := PNone |}).
Proof.
  intros Hem Hopen Hpost Hcode Hjson result. subst result.
  rewrite (send_message_decoded py_str w self a payload files resp d)
    by assumption.
  split; [|split].
  - by intros ->.
  - intros [st ->] ->. done.
  - intros st rq -> ->. done.
Qed.

(** C9 (defect of the code): a 200 answer whose body lacks [status] or
    [request] should surface as a [PushoverError], the only exception the
    docstring of [send_message] announces and the one every other failure
    of the same request raises (a non-200 answer, a connection failure).
    The code misses this case: answered with status 200 and the body
    [{"request": "r-1"}], [send_message("u", "m")] raises
    [KeyError('status')]; answered with [{"status": 1}], it raises
    [KeyError('request')]. *)
Theorem send_message_missing_field_leaks_KeyError
    (py_str : pyvalue -> string) :
  let call w :=
    (send_message py_str w Fixtures.client (SendArgs_default "u" "m")).2 in
  call (Fixtures.world
          (Fixtures.respond 200 (PDict (<["request" := PStr "r-1"]> ∅))))
    = inl (KeyError "status") /\
  call (Fixtures.world
          (Fixtures.respond 200 (PDict (<["status" := PInt 1]> ∅))))
    = inl (KeyError "request") /\
  call (Fixtures.world
          (Fixtures.respond 500 (PDict (<["request" := PStr "r-1"]> ∅))))
    = inl (PushoverError
             ("API request failed: "
              +:+ py_str (PList [PStr "Unknown error"]))) /\
  call (Fixtures.world (inl Fixtures.connection_error))
    = inl (PushoverError "Request failed: Connection refused").
Proof.
  intros call. subst call. cbv beta.
  split; [|split; [|split]].
  - apply (send_message_missing_field py_str
             (Fixtures.world
                (Fixtures.respond 200 (PDict (<["request" := PStr "r-1"]> ∅))))
             Fixtures.client (SendArgs_default "u" "m")
             (build_payload Fixtures.client (SendArgs_default "u" "m")) None
             {| status_code := 200;
                json := inr (PDict (<["request" := PStr "r-1"]> ∅)) |}
             (<["request" := PStr "r-1"]> ∅)
             eq_refl eq_refl eq_refl eq_refl eq_refl).
    reflexivity.
  - apply (send_message_missing_field py_str
             (Fixtures.world
                (Fixtures.respond 200 (PDict (<["status" := PInt 1]> ∅))))
             Fixtures.client (SendArgs_default "u" "m")
             (build_payload Fixtures.client (SendArgs_default "u" "m")) None
             {| status_code := 200;
                json := inr (PDict (<["status" := PInt 1]> ∅)) |}
             (<["status" := PInt 1]> ∅)
             eq_refl eq_refl eq_refl eq_refl eq_refl);
      [by eexists | reflexivity].
  - reflexivity.
  - reflexivity.
Qed.

(** ** Zero in [GlancesData] and in [send_message] (C10) *)

(** C10: in [to_dict] zero is a value like any other:
    [GlancesData(count=0)] serializes to exactly [{"count": 0}] and
    [GlancesData(percent=0)] to exactly [{"percent": 0}] (and an empty
    title is kept as well); a field is left out only when it is [None].
    The payload of [send_message] differs: there a zero timestamp or ttl,
    an empty string and a false flag are dropped. *)
Theorem to_dict_keeps_zero :
  to_dict (glance_count 0) = {["count" := PInt 0]} /\
  to_dict (glance_percent 0) = {["percent" := PInt 0]} /\
  to_dict (glance_title "") = {["title" := PStr ""]} /\
  (forall g : GlancesData,
     (to_dict g !! "title" = None <-> g_title g = None) /\
     (to_dict g !! "text" = None <-> g_text g = None) /\
     (to_dict g !! "subtext" = None <-> g_subtext g = None) /\
     (to_dict g !! "count" = None <-> g_count g = None) /\
     (to_dict g !! "percent" = None <-> g_percent g = None)) /\
  (forall (self : Pushover) (user_key message : string),
     build_payload self
       {| user_key := user_key; message := message; title := Some "";
          device := Some ""; priority := NORMAL; sound := Some "";
          url := Some ""; url_title := Some ""; timestamp := Some 0;
          html := false; monospace := false; ttl := Some 0;
          retry := None; expire := None; callback_url := None;
          attachment := None |}
     = build_payload self (SendArgs_default user_key message)).
Proof.
  do 3 (split; [reflexivity|]).
  split; [|reflexivity].
  intros g. rewrite !to_dict_lookup. simpl.
  destruct (g_title g), (g_text g), (g_subtext g), (g_count g), (g_percent g);
    done.
Qed.

(** ** Further properties of [send_message] *)

Section Outcomes.

Variable py_str : pyvalue -> string.

(** The outcome of [send_message] once its request has an answer. *)
Lemma send_message_outcome (w : World) (self : Pushover) (a : SendArgs)
    (answer : ext_exn + Response) :
  send_message_answer w self a = Some answer ->
  (send_message py_str w self a).2 =
    match answer with
    | inl e => inl (after_except e)
    | inr resp =>
        match json resp with
        | inl e => inl (after_except e)
        | inr data =>
            if negb (status_code resp =? 200) then
              match data with
              | PDict d =>
                  inl (PushoverError
                         ("API request failed: "
                          +:+ py_str (default (PList [PStr "Unknown error"])
                                        (d !! "errors"))))
              | v => inl (AttributeError
                            ("'" +:+ py_type_name v
                             +:+ "' object has no attribute 'get'"))
              end
            else
              match data with
              | PDict d =>
                  match d !! "status", d !! "request" with
                  | None, _ => inl (KeyError "status")
                  | Some _, None => inl (KeyError "request")
                  | Some st, Some rq =>
                      inr {| status := st; request_id := rq;
                             receipt := default PNone (d !! "receipt");
                             errors := PNone |}
                  end
              | v =>
                  inl match (py_getitem v "status").2 with
                      | inl e => e
                      | inr _ => KeyError "status"
                      end
              end
        end
    end.
Proof.
  unfold send_message_answer, send_message. intros Hans.
  destruct (emergency_params a (build_payload self a)) as [e|payload];
    [done|].
  destruct (open_attachment w a) as [t [e|files]]; simpl in Hans; [done|].
  injection Hans as <-.
  run_unfold. simpl.
  destruct (http_post w (BASE_URL +:+ "/messages.json") payload files)
    as [e|resp]; simpl.
  - unfold after_except. by destruct (exc_cls e).
  - destruct (json resp) as [e|data]; simpl.
    + unfold after_except. by destruct (exc_cls e).
    + destruct (negb (status_code resp =? 200)); simpl.
      * destruct data; done.
      * destruct data; try done.
        destruct (d !! "status"); simpl; [|done].
        destruct (d !! "request"); simpl; done.
Qed.

End Outcomes.

(** What the emergency check puts into the payload when it passes. *)
Lemma emergency_params_inr (a : SendArgs) (payload payload' : gmap string pyvalue) :
  emergency_params a payload = inr payload' ->
  (priority a <> EMERGENCY /\ payload' = payload) \/
  (priority a = EMERGENCY /\
   exists r e,
     retry a = Some r /\ expire a = Some e /\
     30 <= r /\ e <> 0 /\ e <= 10800 /\
     payload' = set_if_str "callback" (callback_url a)
                  (<["expire" := PInt e]> (<["retry" := PInt r]> payload))).
Proof.
  unfold emergency_params. intros H.
  destruct (priority a) eqn:Hp; simpl in H; simplify_eq;
    try (left; split; [discriminate|reflexivity]).
  right. split; [reflexivity|].
  destruct (retry a) as [r|], (expire a) as [e|]; simpl in H;
    rewrite ?orb_true_r in H; try done.
  destruct (r =? 0) eqn:Hr; simpl in H; [done|].
  destruct (e =? 0) eqn:He; simpl in H; [done|].
  destruct (r <? 30) eqn:Hlt; [done|].
  destruct (e >? 10800) eqn:Hgt; [done|].
  simplify_eq. exists r, e.
  apply Z.eqb_neq in He. apply Z.ltb_ge in Hlt.
  rewrite Z.gtb_ltb in Hgt. apply Z.ltb_ge in Hgt.
  done.
Qed.

(** What the emergency check raises when it does not pass. *)
Lemma emergency_params_inl (a : SendArgs) (payload : gmap string pyvalue)
    (e : exn) :
  emergency_params a payload = inl e ->
  e = ValueError msg_requires \/ e = ValueError msg_retry \/
  e = ValueError msg_expire.
Proof.
  unfold emergency_params. intros H.
  destruct (Priority_eqb (priority a) EMERGENCY); [|done].
  destruct (retry a) as [r|], (expire a) as [x|]; simpl in H;
    rewrite ?orb_true_r in H; simplify_eq; eauto.
  repeat case_match; simplify_eq; eauto.
Qed.

(** X1: every request [send_message] sends with priority [EMERGENCY]
    carries the caller's [retry] and [expire], with [retry >= 30] and
    [expire] non-zero and at most 10800; [callback] is in it exactly when a
    non-empty [callback_url] was given. *)
Theorem send_message_emergency_request (py_str : pyvalue -> string) (w : World)
    (self : Pushover) (a : SendArgs)
    (endpoint : string) (data : gmap string pyvalue) (files : option FilePart) :
  EvPost endpoint data files ∈ (send_message py_str w self a).1 ->
  priority a = EMERGENCY ->
  exists r e : Z,
    retry a = Some r /\ expire a = Some e /\
    30 <= r /\ e <> 0 /\ e <= 10800 /\
    data !! "retry" = Some (PInt r) /\
    data !! "expire" = Some (PInt e) /\
    included_iff_str data "callback" (callback_url a).
Proof.
  intros Hin Hp. apply send_message_request in Hin as (_ & Hem & _).
  apply emergency_params_inr in Hem as [[Hne _]|(_ & r & e & Hr & He & ? & ? & ? & ->)];
    [done|].
  exists r, e. repeat (split; [done|]).
  split; [|split].
  - rewrite lookup_set_if_str. case_decide; [done|].
    rewrite lookup_insert_ne by done. by rewrite lookup_insert_eq.
  - rewrite lookup_set_if_str. case_decide; [done|]. by rewrite lookup_insert_eq.
  - apply included_iff_str_intro. rewrite lookup_set_if_str.
    case_decide; [|done].
    destruct (truthy_str (callback_url a)); [done|].
    rewrite !lookup_insert_ne by done. rewrite build_payload_lookup. reflexivity.
Qed.

Lemma send_message_emergency_request_witness :
  let a := Fixtures.emergency (Some 60) (Some 3600) in
  let w := Fixtures.world (Fixtures.respond 200 Fixtures.ok_body) in
  exists data,
    EvPost (BASE_URL +:+ "/messages.json") data None
      ∈ (send_message Fixtures.py_str0 w Fixtures.client a).1 /\
    data !! "retry" = Some (PInt 60) /\ data !! "expire" = Some (PInt 3600).
Proof.
  intros a w.
  exists (<["expire" := PInt 3600]>
            (<["retry" := PInt 60]> (build_payload Fixtures.client a))).
  assert (Hin : EvPost (BASE_URL +:+ "/messages.json")
                  (<["expire" := PInt 3600]>
                     (<["retry" := PInt 60]> (build_payload Fixtures.client a)))
                  None
                  ∈ (send_message Fixtures.py_str0 w Fixtures.client a).1)
    by (vm_compute; left).
  split; [exact Hin|].
  destruct (send_message_emergency_request Fixtures.py_str0 w Fixtures.client a
              _ _ _ Hin eq_refl)
    as (r & e & Hr & He & _ & _ & _ & Hdr & Hde & _).
  injection Hr as <-. injection He as <-. by split.
Defined.

(** X2: a request [send_message] sends with a priority other than
    [EMERGENCY] never carries [retry], [expire] or [callback], whatever the
    caller passed for them: its payload is the one of lines 120-136. *)
Theorem send_message_plain_request (py_str : pyvalue -> string) (w : World)
    (self : Pushover) (a : SendArgs)
    (endpoint : string) (data : gmap string pyvalue) (files : option FilePart) :
  EvPost endpoint data files ∈ (send_message py_str w self a).1 ->
  priority a <> EMERGENCY ->
  data = build_payload self a /\
  data !! "retry" = None /\ data !! "expire" = None /\
  data !! "callback" = None.
Proof.
  intros Hin Hp. apply send_message_request in Hin as (_ & Hem & _).
  rewrite emergency_params_skipped in Hem by done. injection Hem as <-.
  split; [reflexivity|].
  rewrite !build_payload_lookup. done.
Qed.

Lemma send_message_plain_request_witness :
  let a :=
    {| user_key := "u"; message := "m"; title := None; device := None;
       priority := HIGH; sound := None; url := None; url_title := None;
       timestamp := None; html := false; monospace := false; ttl := None;
       retry := Some 60; expire := Some 3600;
       callback_url := Some "https://example.org/ack"; attachment := None |} in
  let w := Fixtures.world (Fixtures.respond 200 Fixtures.ok_body) in
  EvPost (BASE_URL +:+ "/messages.json") (build_payload Fixtures.client a) None
    ∈ (send_message Fixtures.py_str0 w Fixtures.client a).1 /\
  build_payload Fixtures.client a !! "retry" = None /\
  build_payload Fixtures.client a !! "callback" = None.
Proof.
  intros a w.
  assert (Hin : EvPost (BASE_URL +:+ "/messages.json")
                  (build_payload Fixtures.client a) None
                  ∈ (send_message Fixtures.py_str0 w Fixtures.client a).1)
    by (vm_compute; left).
  split; [exact Hin|].
  destruct (send_message_plain_request Fixtures.py_str0 w Fixtures.client a
              _ _ _ Hin ltac:(discriminate)) as (_ & Hr & _ & Hc).
  by split.
Defined.

(** X3: [send_message] sends at most one request, always to the messages
    endpoint, and it cannot return a response without having sent exactly
    one. *)
Theorem send_message_at_most_one_request (py_str : pyvalue -> string)
    (w : World) (self : Pushover) (a : SendArgs) :
  (length (requests_sent (send_message py_str w self a).1) <= 1)%nat /\
  (forall ev, ev ∈ requests_sent (send_message py_str w self a).1 ->
     exists data files, ev = EvPost (BASE_URL +:+ "/messages.json") data files) /\
  (forall r, (send_message py_str w self a).2 = inr r ->
     length (requests_sent (send_message py_str w self a).1) = 1%nat).
Proof.
  rewrite send_message_requests.
  split; [|split].
  - repeat case_match; simpl; lia.
  - intros ev Hev. repeat case_match; try by apply elem_of_nil in Hev.
    apply list_elem_of_singleton in Hev. eauto.
  - intros r Hr. unfold send_message in Hr.
    destruct (emergency_params a (build_payload self a)) as [e|payload];
      [done|].
    destruct (open_attachment w a) as [t [e|files]]; [done|]. reflexivity.
Qed.

(** X4: when the service answers the request of [send_message] with a
    status other than 200 and a body that decodes to an object,
    [send_message] raises a [PushoverError] whose message shows the body's
    [errors], or [['Unknown error']] when the body has none. *)
Theorem send_message_non_200 (py_str : pyvalue -> string) (w : World)
    (self : Pushover) (a : SendArgs) (resp : Response)
    (d : gmap string pyvalue) :
  send_message_answer w self a = Some (inr resp) ->
  status_code resp <> 200 ->
  json resp = inr (PDict d) ->
  (send_message py_str w self a).2 =
    inl (PushoverError
           ("API request failed: "
            +:+ py_str (default (PList [PStr "Unknown error"]) (d !! "errors")))).
Proof.
  intros Hans Hcode Hjson.
  rewrite (send_message_outcome py_str w self a _ Hans), Hjson.
  apply Z.eqb_neq in Hcode. by rewrite Hcode.
Qed.

Lemma send_message_non_200_witness :
  let w := Fixtures.world (Fixtures.respond 400 (PDict ∅)) in
  send_message_answer w Fixtures.client (SendArgs_default "u" "m")
    = Some (Fixtures.respond 400 (PDict ∅)) /\
  (send_message Fixtures.py_str0 w Fixtures.client (SendArgs_default "u" "m")).2
    = inl (PushoverError
             ("API request failed: "
              +:+ Fixtures.py_str0 (PList [PStr "Unknown error"]))).
Proof.
  intros w. split; [reflexivity|].
  exact (send_message_non_200 Fixtures.py_str0 w Fixtures.client
           (SendArgs_default "u" "m")
           {| status_code := 400; json := inr (PDict ∅) |} ∅
           eq_refl ltac:(discriminate) eq_refl).
Defined.

(** X5: an exception of the transport, or of decoding the body whatever
    the status code of the response, reaches the caller of [send_message]
    as a [PushoverError] "Request failed: ..." when it is a
    [RequestException], and unchanged otherwise. *)
Theorem send_message_transport_failure (py_str : pyvalue -> string)
    (w : World) (self : Pushover) (a : SendArgs) (e : ext_exn) :
  send_message_answer w self a = Some (inl e) \/
  (exists resp, send_message_answer w self a = Some (inr resp) /\
                json resp = inl e) ->
  (send_message py_str w self a).2 =
    inl (match exc_cls e with
         | RequestException => PushoverError ("Request failed: " +:+ exc_str e)
         | _ => External e
         end).
Proof.
  intros [Hans|(resp & Hans & Hjson)];
    rewrite (send_message_outcome py_str w self a _ Hans); [done|].
  by rewrite Hjson.
Qed.

Lemma send_message_transport_failure_witness :
  let w := Fixtures.world (inl Fixtures.connection_error) in
  send_message_answer w Fixtures.client (SendArgs_default "u" "m")
    = Some (inl Fixtures.connection_error) /\
  (send_message Fixtures.py_str0 w Fixtures.client (SendArgs_default "u" "m")).2
    = inl (PushoverError "Request failed: Connection refused").
Proof.
  intros w. split; [reflexivity|].
  exact (send_message_transport_failure Fixtures.py_str0 w Fixtures.client
           (SendArgs_default "u" "m") Fixtures.connection_error
           (or_introl eq_refl)).
Defined.

(** X6: with a non-empty attachment path that [open] accepts, and the
    emergency check passed, [send_message] opens the file and then sends
    one request whose [files] is the part named "attachment" with filename
    "image.jpg", content type "image/jpeg" and the opened file. *)
Theorem send_message_attachment_sent (py_str : pyvalue -> string) (w : World)
    (self : Pushover) (a : SendArgs) (path : string) (f : File)
    (payload : gmap string pyvalue) :
  attachment a = Some path -> path <> "" -> fs_open w path = inr f ->
  emergency_params a (build_payload self a) = inr payload ->
  (send_message py_str w self a).1 =
    [EvOpen path;
     EvPost (BASE_URL +:+ "/messages.json") payload
       (Some {| part_name := "attachment"; part_filename := "image.jpg";
                part_file := f; part_content_type := "image/jpeg" |})].
Proof.
  intros Ha Hp Ho Hem. unfold send_message, open_attachment.
  rewrite Hem, Ha. destruct path as [|c path]; [done|].
  run_unfold. simpl. rewrite Ho. simpl.
  repeat case_match; simplify_eq /=; done.
Qed.

Lemma send_message_attachment_sent_witness :
  let a := Fixtures.normal_with None None false (Some "photo.jpg") in
  let w := GetFixtures.world_with_photo (Fixtures.respond 200 Fixtures.ok_body) in
  fs_open w "photo.jpg" = inr (FileOf "photo.jpg") /\
  (send_message Fixtures.py_str0 w Fixtures.client a).1 =
    [EvOpen "photo.jpg";
     EvPost (BASE_URL +:+ "/messages.json") (build_payload Fixtures.client a)
       (Some {| part_name := "attachment"; part_filename := "image.jpg";
                part_file := FileOf "photo.jpg";
                part_content_type := "image/jpeg" |})].
Proof.
  intros a w. split; [reflexivity|].
  exact (send_message_attachment_sent Fixtures.py_str0 w Fixtures.client a
           "photo.jpg" (FileOf "photo.jpg") (build_payload Fixtures.client a)
           eq_refl ltac:(discriminate) eq_refl eq_refl).
Defined.

(** X7: without an attachment, and an empty path counts as none,
    [send_message] opens no file: whatever it does, its trace holds no
    [open] and every request it sends has no [files]. *)
Theorem send_message_without_attachment (py_str : pyvalue -> string)
    (w : World) (self : Pushover) (a : SendArgs) :
  attachment a = None \/ attachment a = Some "" ->
  forall ev, ev ∈ (send_message py_str w self a).1 ->
    exists endpoint data, ev = EvPost endpoint data None.
Proof.
  intros Ha ev Hev. unfold send_message, open_attachment in Hev.
  destruct (emergency_params a (build_payload self a)) as [e|payload];
    [by apply elem_of_nil in Hev|].
  destruct Ha as [Ha|Ha]; rewrite Ha in Hev; run_cases;
    apply list_elem_of_singleton in Hev; eauto.
Qed.

Lemma send_message_without_attachment_witness :
  let a := Fixtures.normal_with None None false (Some "") in
  let w := Fixtures.world (Fixtures.respond 200 Fixtures.ok_body) in
  attachment a = Some "" /\
  exists endpoint data,
    EvPost (BASE_URL +:+ "/messages.json") (build_payload Fixtures.client a) None
    = EvPost endpoint data None.
Proof.
  intros a w. split; [reflexivity|].
  apply (send_message_without_attachment Fixtures.py_str0 w Fixtures.client a
           (or_intror eq_refl)).
  vm_compute. left.
Defined.

(** X8: when the body of the answer decodes to something that is not an
    object (a list, a string, a number, null), [send_message] lets the
    interpreter's error through: a [TypeError] on status 200, an
    [AttributeError] on any other status; it is not turned into a
    [PushoverError]. *)
Theorem send_message_body_not_object (py_str : pyvalue -> string) (w : World)
    (self : Pushover) (a : SendArgs) (resp : Response) (v : pyvalue) :
  send_message_answer w self a = Some (inr resp) ->
  json resp = inr v ->
  is_dict v = false ->
  (status_code resp = 200 ->
     exists msg, (send_message py_str w self a).2 = inl (TypeError msg)) /\
  (status_code resp <> 200 ->
     exists msg, (send_message py_str w self a).2 = inl (AttributeError msg)).
Proof.
  intros Hans Hjson Hv.
  rewrite (send_message_outcome py_str w self a _ Hans), Hjson.
  split.
  - intros ->. simpl. destruct v; try done; simpl; eauto.
  - intros Hcode. apply Z.eqb_neq in Hcode. rewrite Hcode. simpl.
    destruct v; try done; eauto.
Qed.

Lemma send_message_body_not_object_witness :
  let w := Fixtures.world (Fixtures.respond 200 (PList [])) in
  send_message_answer w Fixtures.client (SendArgs_default "u" "m")
    = Some (Fixtures.respond 200 (PList [])) /\
  exists msg,
    (send_message Fixtures.py_str0 w Fixtures.client
       (SendArgs_default "u" "m")).2 = inl (TypeError msg).
Proof.
  intros w. split; [reflexivity|].
  apply (send_message_body_not_object Fixtures.py_str0 w Fixtures.client
           (SendArgs_default "u" "m")
           {| status_code := 200; json := inr (PList []) |} (PList [])
           eq_refl eq_refl eq_refl).
  reflexivity.
Defined.

Lemma build_payload_dom (self : Pushover) (a : SendArgs) :
  dom (build_payload self a) ⊆ send_message_keys.
Proof.
  intros key Hkey. apply elem_of_dom in Hkey as [v Hv].
  rewrite build_payload_lookup in Hv. unfold send_message_keys.
  repeat (case_decide; [subst; set_solver|]). done.
Qed.

(** X9: the payload of every request [send_message] sends has no key
    outside token, user, message, priority, title, device, sound, url,
    url_title, timestamp, html, monospace, ttl, retry, expire and
    callback. *)
Theorem send_message_payload_keys (py_str : pyvalue -> string) (w : World)
    (self : Pushover) (a : SendArgs)
    (endpoint : string) (data : gmap string pyvalue) (files : option FilePart) :
  EvPost endpoint data files ∈ (send_message py_str w self a).1 ->
  dom data ⊆ send_message_keys.
Proof.
  intros Hin. apply send_message_request in Hin as (_ & Hem & _).
  intros key Hkey.
  destruct (decide (key = "retry")) as [->|Hr]; [set_solver|].
  destruct (decide (key = "expire")) as [->|He]; [set_solver|].
  destruct (decide (key = "callback")) as [->|Hc]; [set_solver|].
  apply (build_payload_dom self a).
  apply elem_of_dom. apply elem_of_dom in Hkey.
  by rewrite <- (emergency_params_lookup a _ _ key Hem).
Qed.

Lemma send_message_payload_keys_witness :
  let a := Fixtures.emergency (Some 60) (Some 3600) in
  let w := Fixtures.world (Fixtures.respond 200 Fixtures.ok_body) in
  let data :=
    <["expire" := PInt 3600]>
      (<["retry" := PInt 60]> (build_payload Fixtures.client a)) in
  EvPost (BASE_URL +:+ "/messages.json") data None
    ∈ (send_message Fixtures.py_str0 w Fixtures.client a).1 /\
  dom data ⊆ send_message_keys.
Proof.
  intros a w data.
  assert (Hin : EvPost (BASE_URL +:+ "/messages.json") data None
                  ∈ (send_message Fixtures.py_str0 w Fixtures.client a).1)
    by (vm_compute; left).
  split; [exact Hin|].
  exact (send_message_payload_keys Fixtures.py_str0 w Fixtures.client a
           _ _ _ Hin).
Defined.

(** X10: no [RequestException] escapes from [send_message]: whatever
    exception of the outside world it lets through is of another class
    (and the [OSError] of a failed [open] never gets out either, since
    [open] errors are always wrapped). *)
Theorem send_message_wraps_RequestException (py_str : pyvalue -> string)
    (w : World) (self : Pushover) (a : SendArgs) (e : ext_exn) :
  (send_message py_str w self a).2 = inl (External e) ->
  exc_cls e <> RequestException /\
  exists resp_or_exn, send_message_answer w self a = Some resp_or_exn.
Proof.
  intros Hres.
  destruct (send_message_answer w self a) as [answer|] eqn:Hans.
  - split; [|by eexists].
    rewrite (send_message_outcome py_str w self a _ Hans) in Hres.
    unfold after_except in Hres.
    intros Hcls. destruct answer as [e'|resp].
    + destruct (exc_cls e') eqn:He'; simplify_eq; congruence.
    + destruct (json resp) as [e'|data].
      * destruct (exc_cls e') eqn:He'; simplify_eq; congruence.
      * repeat case_match; simplify_eq.
  - exfalso. unfold send_message_answer in Hans.
    destruct (emergency_params a (build_payload self a)) as [x|payload] eqn:Hem.
    + rewrite (send_message_rejected py_str w self a x Hem) in Hres.
      apply emergency_params_inl in Hem as [-> | [-> | ->]]; done.
    + destruct (open_attachment_outcome w a) as [[files Hf]|[m Hf]];
        rewrite Hf in Hans; [done|].
      unfold send_message in Hres. rewrite Hem in Hres.
      destruct (open_attachment w a) as [t r]. simpl in Hf. subst r.
      done.
Qed.

Lemma send_message_wraps_RequestException_witness :
  let w := Fixtures.world (inl (ExtExn OtherException "boom")) in
  (send_message Fixtures.py_str0 w Fixtures.client (SendArgs_default "u" "m")).2
    = inl (External (ExtExn OtherException "boom")) /\
  exc_cls (ExtExn OtherException "boom") <> RequestException.
Proof.
  intros w. split; [reflexivity|].
  apply (send_message_wraps_RequestException Fixtures.py_str0 w Fixtures.client
           (SendArgs_default "u" "m") (ExtExn OtherException "boom")).
  reflexivity.
Defined.

(** ** Further properties of [update_glance] *)

Lemma glance_payload_lookup (self : Pushover) (user_key : string)
    (g : GlancesData) (device : option string) (key : string) :
  glance_payload self user_key g device !! key =
    if decide ("device" = key) then
      if truthy_str device then PStr <$> device else None
    else if decide ("percent" = key) then PInt <$> g_percent g
    else if decide ("count" = key) then PInt <$> g_count g
    else if decide ("subtext" = key) then PStr <$> g_subtext g
    else if decide ("text" = key) then PStr <$> g_text g
    else if decide ("title" = key) then PStr <$> g_title g
    else if decide ("user" = key) then Some (PStr user_key)
    else if decide ("token" = key) then Some (PStr (app_token self))
    else None.
Proof.
  unfold glance_payload.
  rewrite lookup_set_if_str, lookup_union, to_dict_lookup, !lookup_insert,
    lookup_empty.
  case_decide; [subst; simpl; by destruct (truthy_str device)|].
  repeat (case_decide;
          [subst; simpl;
           by destruct (g_percent g), (g_count g), (g_subtext g), (g_text g),
                (g_title g)|]).
  done.
Qed.

Section GlanceFacts.

Variable py_str : pyvalue -> string.

(** The trace of [update_glance]: nothing, or the one request. *)
Lemma update_glance_trace (w : World) (self : Pushover) (user_key : string)
    (g : GlancesData) (device : option string) :
  (update_glance py_str w self user_key g device).1 =
    match validate g with
    | inl _ => []
    | inr _ => [EvPost (BASE_URL +:+ "/glances.json")
                  (glance_payload self user_key g device) None]
    end.
Proof.
  unfold update_glance, glance_payload.
  destruct (validate g) as [e|[]]; [reflexivity|].
  run_cases.
Qed.

(** The outcome of [update_glance] once its request has an answer. *)
Lemma update_glance_outcome (w : World) (self : Pushover) (user_key : string)
    (g : GlancesData) (device : option string) (answer : ext_exn + Response) :
  update_glance_answer w self user_key g device = Some answer ->
  (update_glance py_str w self user_key g device).2 =
    match answer with
    | inl e => inl (after_except e)
    | inr resp =>
        match json resp with
        | inl e => inl (after_except e)
        | inr data =>
            if negb (status_code resp =? 200) then
              match data with
              | PDict d =>
                  inl (PushoverError
                         ("API request failed: "
                          +:+ py_str (default (PList [PStr "Unknown error"])
                                        (d !! "errors"))))
              | v => inl (AttributeError
                            ("'" +:+ py_type_name v
                             +:+ "' object has no attribute 'get'"))
              end
            else
              match data with
              | PDict d =>
                  match d !! "status", d !! "request" with
                  | None, _ => inl (KeyError "status")
                  | Some _, None => inl (KeyError "request")
                  | Some st, Some rq =>
                      inr {| status := st; request_id := rq;
                             receipt := PNone; errors := PNone |}
                  end
              | v =>
                  inl match (py_getitem v "status").2 with
                      | inl e => e
                      | inr _ => KeyError "status"
                      end
              end
        end
    end.
Proof.
  unfold update_glance_answer, update_glance, glance_payload. intros Hans.
  destruct (validate g) as [e|[]]; [done|].
  injection Hans as <-.
  run_unfold. simpl.
  destruct (http_post w (BASE_URL +:+ "/glances.json") _ None)
    as [e|resp]; simpl.
  - unfold after_except. by destruct (exc_cls e).
  - destruct (json resp) as [e|data]; simpl.
    + unfold after_except. by destruct (exc_cls e).
    + destruct (negb (status_code resp =? 200)); simpl.
      * destruct data; done.
      * destruct data; try done.
        destruct (d !! "status"); simpl; [|done].
        destruct (d !! "request"); simpl; done.
Qed.

End GlanceFacts.

(** X11: the one request [update_glance] can send goes to the glances
    endpoint without files, only after validation has passed, and its
    payload holds the client's token and the user key, [device] exactly
    when a non-empty device was given, each glance field exactly when it is
    set, with its value, and no other key. *)
Theorem update_glance_request (py_str : pyvalue -> string) (w : World)
    (self : Pushover) (user_key : string) (g : GlancesData)
    (device : option string)
    (endpoint : string) (data : gmap string pyvalue) (files : option FilePart) :
  EvPost endpoint data files
    ∈ (update_glance py_str w self user_key g device).1 ->
  endpoint = BASE_URL +:+ "/glances.json" /\ files = None /\
  validate g = inr tt /\
  data !! "token" = Some (PStr (app_token self)) /\
  data !! "user" = Some (PStr user_key) /\
  included_iff_str data "device" device /\
  data !! "title" = PStr <$> g_title g /\
  data !! "text" = PStr <$> g_text g /\
  data !! "subtext" = PStr <$> g_subtext g /\
  data !! "count" = PInt <$> g_count g /\
  data !! "percent" = PInt <$> g_percent g /\
  dom data ⊆ update_glance_keys.
Proof.
  rewrite update_glance_trace. intros Hin.
  destruct (validate g) as [e|[]]; [by apply elem_of_nil in Hin|].
  apply list_elem_of_singleton in Hin. injection Hin as -> -> ->.
  do 3 (split; [reflexivity|]).
  repeat split;
    first [ apply included_iff_str_intro | idtac ];
    try (rewrite glance_payload_lookup; reflexivity).
  intros key Hkey. apply elem_of_dom in Hkey as [v Hv].
  rewrite glance_payload_lookup in Hv. unfold update_glance_keys.
  repeat (case_decide; [subst; set_solver|]). done.
Qed.

Lemma update_glance_request_witness :
  let w := Fixtures.world (Fixtures.respond 200 Fixtures.ok_body) in
  let data := glance_payload Fixtures.client "u" (glance_count 0) (Some "") in
  EvPost (BASE_URL +:+ "/glances.json") data None
    ∈ (update_glance Fixtures.py_str0 w Fixtures.client "u" (glance_count 0)
         (Some "")).1 /\
  data !! "count" = Some (PInt 0) /\
  included_iff_str data "device" (Some "").
Proof.
  intros w data.
  assert (Hin : EvPost (BASE_URL +:+ "/glances.json") data None
                  ∈ (update_glance Fixtures.py_str0 w Fixtures.client "u"
                       (glance_count 0) (Some "")).1)
    by (vm_compute; left).
  split; [exact Hin|].
  pose proof (update_glance_request Fixtures.py_str0 w Fixtures.client "u"
                (glance_count 0) (Some "") _ _ _ Hin) as H.
  split; apply H.
Defined.

(** X12: whatever [update_glance] sends is within the bounds of the data
    model: a title, text or subtext in the payload has at most 100
    characters and a percent in the payload lies in 0..100. *)
Theorem update_glance_sends_valid_data (py_str : pyvalue -> string) (w : World)
    (self : Pushover) (user_key : string) (g : GlancesData)
    (device : option string)
    (endpoint : string) (data : gmap string pyvalue) (files : option FilePart) :
  EvPost endpoint data files
    ∈ (update_glance py_str w self user_key g device).1 ->
  (forall s, data !! "title" = Some (PStr s) -> py_len s <= 100) /\
  (forall s, data !! "text" = Some (PStr s) -> py_len s <= 100) /\
  (forall s, data !! "subtext" = Some (PStr s) -> py_len s <= 100) /\
  (forall p, data !! "percent" = Some (PInt p) -> 0 <= p <= 100).
Proof.
  rewrite update_glance_trace. intros Hin.
  destruct (validate g) as [e|[]] eqn:Hval; [by apply elem_of_nil in Hin|].
  apply list_elem_of_singleton in Hin. injection Hin as -> -> ->.
  apply validate_ok_iff in Hval as (Ht & Hx & Hs & Hp).
  rewrite !glance_payload_lookup. simpl.
  split; [|split; [|split]].
  - intros s Hd. apply Ht. destruct (g_title g); by simplify_eq /=.
  - intros s Hd. apply Hx. destruct (g_text g); by simplify_eq /=.
  - intros s Hd. apply Hs. destruct (g_subtext g); by simplify_eq /=.
  - intros p Hd. apply Hp. destruct (g_percent g); by simplify_eq /=.
Qed.

Lemma update_glance_sends_valid_data_witness :
  let w := Fixtures.world (Fixtures.respond 200 Fixtures.ok_body) in
  let data := glance_payload Fixtures.client "u" (glance_percent 100) None in
  EvPost (BASE_URL +:+ "/glances.json") data None
    ∈ (update_glance Fixtures.py_str0 w Fixtures.client "u"
         (glance_percent 100) None).1 /\
  forall p, data !! "percent" = Some (PInt p) -> 0 <= p <= 100.
Proof.
  intros w data.
  assert (Hin : EvPost (BASE_URL +:+ "/glances.json") data None
                  ∈ (update_glance Fixtures.py_str0 w Fixtures.client "u"
                       (glance_percent 100) None).1)
    by (vm_compute; left).
  split; [exact Hin|].
  apply (update_glance_sends_valid_data Fixtures.py_str0 w Fixtures.client "u"
           (glance_percent 100) None _ _ _ Hin).
Defined.

(** X13: [update_glance] returns a response exactly when its request is
    answered with status 200 and an object holding [status] and
    [request]; the response carries these two and never a receipt, even
    when the body has one. *)
Theorem update_glance_returns_no_receipt (py_str : pyvalue -> string)
    (w : World) (self : Pushover) (user_key : string) (g : GlancesData)
    (device : option string) (r : PushoverResponse) :
  (update_glance py_str w self user_key g device).2 = inr r <->
  exists resp d st rq,
    update_glance_answer w self user_key g device = Some (inr resp) /\
    status_code resp = 200 /\ json resp = inr (PDict d) /\
    d !! "status" = Some st /\ d !! "request" = Some rq /\
    r = {| status := st; request_id := rq; receipt := PNone; errors := PNone |}.
Proof.
  split.
  - intros Hres.
    destruct (update_glance_answer w self user_key g device) as [answer|]
      eqn:Hans.
    + rewrite (update_glance_outcome py_str w self user_key g device _ Hans)
        in Hres.
      destruct answer as [e|resp]; [done|].
      destruct (json resp) as [e|data] eqn:Hjson; [done|].
      destruct (status_code resp =? 200) eqn:Hcode; simpl in Hres;
        [|by destruct data].
      destruct data; try done.
      destruct (d !! "status") as [st|] eqn:Hst; [|done].
      destruct (d !! "request") as [rq|] eqn:Hrq; [|done].
      apply Z.eqb_eq in Hcode. simplify_eq.
      by exists resp, d, st, rq.
    + unfold update_glance_answer in Hans. unfold update_glance in Hres.
      destruct (validate g); done.
  - intros (resp & d & st & rq & Hans & Hcode & Hjson & Hst & Hrq & ->).
    rewrite (update_glance_outcome py_str w self user_key g device _ Hans).
    by rewrite Hjson, Hcode, Hst, Hrq.
Qed.

(** X14: the failures of [update_glance] after validation: a status other
    than 200 with an object as body gives a [PushoverError] showing the
    body's [errors] (or [['Unknown error']]); an exception of the transport
    or of decoding the body gives a [PushoverError] "Request failed: ..."
    when it is a [RequestException] and gets through unchanged otherwise. *)
Theorem update_glance_failures (py_str : pyvalue -> string) (w : World)
    (self : Pushover) (user_key : string) (g : GlancesData)
    (device : option string) :
  let result := (update_glance py_str w self user_key g device).2 in
  let answer := update_glance_answer w self user_key g device in
  (forall resp d,
     answer = Some (inr resp) -> status_code resp <> 200 ->
     json resp = inr (PDict d) ->
     result = inl (PushoverError
                     ("API request failed: "
                      +:+ py_str (default (PList [PStr "Unknown error"])
                                    (d !! "errors"))))) /\
  (forall e, answer = Some (inl e) -> result = inl (after_except e)) /\
  (forall resp e,
     answer = Some (inr resp) -> json resp = inl e ->
     result = inl (after_except e)).
Proof.
  intros result answer. subst result answer.
  split; [|split].
  - intros resp d Hans Hcode Hjson.
    rewrite (update_glance_outcome py_str w self user_key g device _ Hans),
      Hjson.
    apply Z.eqb_neq in Hcode. by rewrite Hcode.
  - intros e Hans.
    by rewrite (update_glance_outcome py_str w self user_key g device _ Hans).
  - intros resp e Hans Hjson.
    rewrite (update_glance_outcome py_str w self user_key g device _ Hans).
    by rewrite Hjson.
Qed.

(** ** Further properties of [validate_user], [check_receipt] and
    [get_sounds] *)

(** X15: [validate_user] sends exactly one request whatever the outcome,
    to the validation endpoint and without files; its payload holds the
    client's token and the user key, [device] exactly when a non-empty
    device was given, and nothing else. *)
Theorem validate_user_request (w : World) (self : Pushover)
    (user_key : string) (device : option string) :
  let data := validate_user_payload self user_key device in
  (validate_user w self user_key device).1
    = [EvPost (BASE_URL +:+ "/users/validate.json") data None] /\
  data !! "token" = Some (PStr (app_token self)) /\
  data !! "user" = Some (PStr user_key) /\
  included_iff_str data "device" device /\
  dom data ⊆ {[ "token"; "user"; "device" ]}.
Proof.
  intros data. subst data.
  assert (Hlookup : forall key,
    validate_user_payload self user_key device !! key =
      if decide ("device" = key) then
        if truthy_str device then PStr <$> device else None
      else if decide ("user" = key) then Some (PStr user_key)
      else if decide ("token" = key) then Some (PStr (app_token self))
      else None).
  { intros key. unfold validate_user_payload.
    rewrite lookup_set_if_str, !lookup_insert, lookup_empty.
    repeat (case_decide; [subst; simpl; repeat case_match; done|]). done. }
  split; [unfold validate_user; run_cases|].
  split; [by rewrite Hlookup|]. split; [by rewrite Hlookup|].
  split; [apply included_iff_str_intro; by rewrite Hlookup|].
  intros key Hkey. apply elem_of_dom in Hkey as [v Hv].
  rewrite Hlookup in Hv.
  repeat (case_decide; [subst; set_solver|]). done.
Qed.

(** The outcome and the trace of [check_receipt]. *)
Lemma check_receipt_run (w : GetWorld) (self : Pushover) (receipt : string) :
  let endpoint := BASE_URL +:+ "/receipts/" +:+ receipt +:+ ".json" in
  let params : gmap string pyvalue := <["token" := PStr (app_token self)]> ∅ in
  check_receipt w self receipt =
    ([EvGet endpoint params],
     match http_get w endpoint params with
     | inl e => inl (after_except e)
     | inr resp =>
         if negb (status_code resp =? 200)
         then inl (PushoverError "Failed to check receipt")
         else match json resp with
              | inl e => inl (after_except e)
              | inr v => inr v
              end
     end).
Proof.
  intros endpoint params. subst endpoint params.
  unfold check_receipt, get_try_except, requests_get, get_on_RequestException,
    get_raise, no_io, response_json, after_except, mbind, GetRun_bind, raise,
    mret, Run_ret.
  destruct (http_get w _ _) as [e|resp]; simpl.
  - by destruct (exc_cls e).
  - destruct (negb (status_code resp =? 200)); simpl; [done|].
    destruct (json resp) as [e|v]; simpl; [by destruct (exc_cls e)|done].
Qed.

(** The outcome and the trace of [get_sounds]. *)
Lemma get_sounds_run (w : GetWorld) (self : Pushover) :
  let endpoint := BASE_URL +:+ "/sounds.json" in
  let params : gmap string pyvalue := <["token" := PStr (app_token self)]> ∅ in
  get_sounds w self =
    ([EvGet endpoint params],
     match http_get w endpoint params with
     | inl e => inl (after_except e)
     | inr resp =>
         if negb (status_code resp =? 200)
         then inl (PushoverError "Failed to get sounds")
         else match json resp with
              | inl e => inl (after_except e)
              | inr (PDict d) => inr (default (PDict ∅) (d !! "sounds"))
              | inr v => inl (AttributeError
                                ("'" +:+ py_type_name v
                                 +:+ "' object has no attribute 'get'"))
              end
     end).
Proof.
  intros endpoint params. subst endpoint params.
  unfold get_sounds, get_try_except, requests_get, get_on_RequestException,
    get_raise, no_io, response_json, py_get, after_except, mbind, GetRun_bind,
    raise, mret, Run_ret.
  destruct (http_get w _ _) as [e|resp]; simpl.
  - by destruct (exc_cls e).
  - destruct (negb (status_code resp =? 200)); simpl; [done|].
    destruct (json resp) as [e|v]; simpl; [by destruct (exc_cls e)|].
    by destruct v.
Qed.

(** X16: [check_receipt] sends exactly one GET, to the receipt's URL with
    the token as only parameter, and it returns a value exactly when the
    answer has status 200 and a body that decodes: the decoded body itself,
    whatever kind of JSON value it is. *)
Theorem check_receipt_passes_body (w : GetWorld) (self : Pushover)
    (receipt : string) (v : pyvalue) :
  let endpoint := BASE_URL +:+ "/receipts/" +:+ receipt +:+ ".json" in
  let params : gmap string pyvalue := <["token" := PStr (app_token self)]> ∅ in
  (check_receipt w self receipt).1 = [EvGet endpoint params] /\
  ((check_receipt w self receipt).2 = inr v <->
   exists resp,
     http_get w endpoint params = inr resp /\
     status_code resp = 200 /\ json resp = inr v).
Proof.
  intros endpoint params. rewrite check_receipt_run. fold endpoint params.
  split; [reflexivity|]. simpl. split.
  - destruct (http_get w endpoint params) as [e|resp]; [done|].
    destruct (status_code resp =? 200) eqn:Hcode; simpl; [|done].
    destruct (json resp) as [e|v'] eqn:Hjson; [done|].
    intros [= <-]. exists resp. by apply Z.eqb_eq in Hcode.
  - intros (resp & -> & Hcode & Hjson). by rewrite Hcode, Hjson.
Qed.

(** X17: the failures of [check_receipt]: a status other than 200 raises
    [PushoverError("Failed to check receipt")] without the body being
    decoded (even a body that cannot be decoded changes nothing); an
    exception of the transport, or of decoding the body of a 200 answer,
    is wrapped into a [PushoverError] when it is a [RequestException] and
    gets through unchanged otherwise. *)
Theorem check_receipt_failures (w : GetWorld) (self : Pushover)
    (receipt : string) :
  let answer :=
    http_get w (BASE_URL +:+ "/receipts/" +:+ receipt +:+ ".json")
      (<["token" := PStr (app_token self)]> ∅) in
  let result := (check_receipt w self receipt).2 in
  (forall resp, answer = inr resp -> status_code resp <> 200 ->
     result = inl (PushoverError "Failed to check receipt")) /\
  (forall e, answer = inl e -> result = inl (after_except e)) /\
  (forall resp e, answer = inr resp -> status_code resp = 200 ->
     json resp = inl e -> result = inl (after_except e)).
Proof.
  intros answer result. subst answer result. rewrite check_receipt_run. simpl.
  split; [|split].
  - intros resp -> Hcode. apply Z.eqb_neq in Hcode. by rewrite Hcode.
  - by intros e ->.
  - intros resp e -> Hcode Hjson. by rewrite Hcode, Hjson.
Qed.

(** X18: on a 200 answer whose body decodes to an object, [get_sounds]
    returns the body's [sounds], and an empty dictionary when the body has
    no such key; it sends exactly one GET, to the sounds endpoint with the
    token as only parameter. *)
Theorem get_sounds_defaults_to_empty (w : GetWorld) (self : Pushover)
    (resp : Response) (d : gmap string pyvalue) :
  http_get w (BASE_URL +:+ "/sounds.json")
    (<["token" := PStr (app_token self)]> ∅) = inr resp ->
  status_code resp = 200 ->
  json resp = inr (PDict d) ->
  get_sounds w self =
    ([EvGet (BASE_URL +:+ "/sounds.json")
        (<["token" := PStr (app_token self)]> ∅)],
     inr match d !! "sounds" with
         | Some sounds => sounds
         | None => PDict ∅
         end).
Proof.
  intros Hget Hcode Hjson. rewrite get_sounds_run. simpl.
  rewrite Hget, Hcode, Hjson. simpl. by destruct (d !! "sounds").
Qed.

Lemma get_sounds_defaults_to_empty_witness :
  (get_sounds (GetFixtures.world (Fixtures.respond 200 (PDict ∅)))
     Fixtures.client).2 = inr (PDict ∅).
Proof.
  exact (f_equal snd
           (get_sounds_defaults_to_empty
              (GetFixtures.world (Fixtures.respond 200 (PDict ∅)))
              Fixtures.client
              {| status_code := 200; json := inr (PDict ∅) |} ∅
              eq_refl eq_refl eq_refl)).
Defined.

(** X19: the failures of [get_sounds]: a status other than 200 raises
    [PushoverError("Failed to get sounds")] without the body being decoded;
    a 200 answer whose body decodes to something that is not an object
    raises an [AttributeError], not a [PushoverError]; an exception of the
    transport or of decoding is wrapped when it is a [RequestException] and
    gets through unchanged otherwise. *)
Theorem get_sounds_failures (w : GetWorld) (self : Pushover) :
  let answer :=
    http_get w (BASE_URL +:+ "/sounds.json")
      (<["token" := PStr (app_token self)]> ∅) in
  let result := (get_sounds w self).2 in
  (forall resp, answer = inr resp -> status_code resp <> 200 ->
     result = inl (PushoverError "Failed to get sounds")) /\
  (forall resp v, answer = inr resp -> status_code resp = 200 ->
     json resp = inr v -> is_dict v = false ->
     exists msg, result = inl (AttributeError msg)) /\
  (forall e, answer = inl e -> result = inl (after_except e)) /\
  (forall resp e, answer = inr resp -> status_code resp = 200 ->
     json resp = inl e -> result = inl (after_except e)).
Proof.
  intros answer result. subst answer result. rewrite get_sounds_run. simpl.
  split; [|split; [|split]].
  - intros resp -> Hcode. apply Z.eqb_neq in Hcode. by rewrite Hcode.
  - intros resp v -> Hcode Hjson Hv. rewrite Hcode, Hjson. simpl.
    destruct v; try done; eauto.
  - by intros e ->.
  - intros resp e -> Hcode Hjson. by rewrite Hcode, Hjson.
Qed.

(** X20: [send_message] returns a response exactly when its request is
    answered with status 200 and an object holding [status] and [request];
    the response carries these two, the body's [receipt] or [None] when
    there is none, and never an error list. *)
Theorem send_message_returns_iff (py_str : pyvalue -> string) (w : World)
    (self : Pushover) (a : SendArgs) (r : PushoverResponse) :
  (send_message py_str w self a).2 = inr r <->
  exists resp d st rq,
    send_message_answer w self a = Some (inr resp) /\
    status_code resp = 200 /\ json resp = inr (PDict d) /\
    d !! "status" = Some st /\ d !! "request" = Some rq /\
    r = {| status := st; request_id := rq;
           receipt := match d !! "receipt" with
                      | Some rc => rc
                      | None => PNone
                      end;
           errors := PNone |}.
Proof.
  split.
  - intros Hres.
    destruct (send_message_answer w self a) as [answer|] eqn:Hans.
    + rewrite (send_message_outcome py_str w self a _ Hans) in Hres.
      destruct answer as [e|resp]; [done|].
      destruct (json resp) as [e|data] eqn:Hjson; [done|].
      destruct (status_code resp =? 200) eqn:Hcode; simpl in Hres;
        [|by destruct data].
      destruct data; try done.
      destruct (d !! "status") as [st|] eqn:Hst; [|done].
      destruct (d !! "request") as [rq|] eqn:Hrq; [|done].
      apply Z.eqb_eq in Hcode. simplify_eq.
      exists resp, d, st, rq. repeat (split; [done|]).
      by destruct (d !! "receipt").
    + unfold send_message_answer in Hans. unfold send_message in Hres.
      destruct (emergency_params a (build_payload self a)); [done|].
      destruct (open_attachment w a) as [t [e|files]]; done.
  - intros (resp & d & st & rq & Hans & Hcode & Hjson & Hst & Hrq & ->).
    rewrite (send_message_outcome py_str w self a _ Hans).
    rewrite Hjson, Hcode, Hst, Hrq. simpl. by destruct (d !! "receipt").
Qed.

(** ** Further properties of the value types *)

(** X21: [validate] reports the first violation in the order title, text,
    subtext, percent: an over-long title gives the title error whatever
    the other fields are; with the title within the bound, an over-long
    text gives the text error; and so on down to percent. *)
Theorem validate_first_error (g : GlancesData) :
  let too_long (field : option string) :=
    exists s, field = Some s /\ 100 < py_len s in
  let fits (field : option string) :=
    forall s, field = Some s -> py_len s <= 100 in
  (too_long (g_title g) ->
     validate g = inl (ValueError "title must be 100 characters or less")) /\
  (fits (g_title g) -> too_long (g_text g) ->
     validate g = inl (ValueError "text must be 100 characters or less")) /\
  (fits (g_title g) -> fits (g_text g) -> too_long (g_subtext g) ->
     validate g = inl (ValueError "subtext must be 100 characters or less")) /\
  (fits (g_title g) -> fits (g_text g) -> fits (g_subtext g) ->
     (exists p, g_percent g = Some p /\ (p < 0 \/ 100 < p)) ->
     validate g = inl (ValueError "percent must be between 0 and 100")).
Proof.
  intros too_long fits.
  assert (Hlong : forall field, too_long field -> longer_than_100 field = true).
  { intros field (s & -> & Hs).
    destruct (longer_than_100 (Some s)) eqn:Hl; [done|].
    apply longer_than_100_spec with (s := s) in Hl; [lia|done]. }
  assert (Hfits : forall field, fits field -> longer_than_100 field = false).
  { intros field Hf. by apply longer_than_100_spec. }
  unfold validate.
  split; [|split; [|split]].
  - intros Ht. by rewrite (Hlong _ Ht).
  - intros Ht Hx. by rewrite (Hfits _ Ht), (Hlong _ Hx).
  - intros Ht Hx Hs. by rewrite (Hfits _ Ht), (Hfits _ Hx), (Hlong _ Hs).
  - intros Ht Hx Hs (p & Hp & Hrange).
    rewrite (Hfits _ Ht), (Hfits _ Hx), (Hfits _ Hs), Hp. simpl.
    destruct (0 <=? p) eqn:H0; destruct (p <=? 100) eqn:H100; simpl; try done.
    apply Z.leb_le in H0, H100. lia.
Qed.

(** X22: serialization loses nothing: two [GlancesData] with the same
    dictionary are the same. *)
Theorem to_dict_injective (g g' : GlancesData) :
  to_dict g = to_dict g' -> g = g'.
Proof.
  intros Heq.
  assert (Hk : forall key, to_dict g !! key = to_dict g' !! key)
    by (intros key; by rewrite Heq).
  pose proof (Hk "title") as Ht. pose proof (Hk "text") as Hx.
  pose proof (Hk "subtext") as Hs. pose proof (Hk "count") as Hc.
  pose proof (Hk "percent") as Hp.
  rewrite !to_dict_lookup in Ht, Hx, Hs, Hc, Hp. simpl in *.
  destruct g as [t x s c p], g' as [t' x' s' c' p']. simpl in *.
  f_equal.
  - destruct t, t'; by simplify_eq /=.
  - destruct x, x'; by simplify_eq /=.
  - destruct s, s'; by simplify_eq /=.
  - destruct c, c'; by simplify_eq /=.
  - destruct p, p'; by simplify_eq /=.
Qed.

Lemma to_dict_injective_witness :
  glance_count 5 = glance_count 5.
Proof.
  exact (to_dict_injective (glance_count 5) (glance_count 5) eq_refl).
Defined.

(** X23: the [priority] field of a payload tells the priority: it is an
    integer between -2 and 2, it is 2 exactly for [EMERGENCY], and two
    payloads with the same [priority] field come from the same
    priority. *)
Theorem priority_field_determines_priority (self self' : Pushover)
    (a a' : SendArgs) :
  (exists v, build_payload self a !! "priority" = Some (PInt v) /\
             -2 <= v <= 2 /\ (v = 2 <-> priority a = EMERGENCY)) /\
  (build_payload self a !! "priority" = build_payload self' a' !! "priority" ->
   priority a = priority a').
Proof.
  rewrite !build_payload_lookup. simpl. split.
  - exists (Priority_value (priority a)). split; [reflexivity|].
    destruct (priority a); simpl; split; try lia; split; done.
  - intros [= Heq]. destruct (priority a), (priority a'); done.
Qed.
